(** * Analytics core of MyNeighborhood

    A shallow embedding of the TypeScript analytics functions and the
    properties their specification states about them:

      - [calculateCAGR] and its companions            (module [Cagr])
      - [formatCAGR]                                  (module [CagrFormat])
      - [calculateRollingAverage], [analyzeMigrationSignal],
        [generateMigrationDescription]                (module [MigrationSignal])
      - [holtWintersForecast], [generateProjections],
        [formatProjectionForAPI]                      (module [HoltWinters])
      - [calculateProjections] of the snapshot builder
                                                      (module [SnapshotBuilder])
      - [buildSnapshots], [buildSnapshotForGeo], [getLatestMetricData],
        [upsertSnapshot] and the command line entry point
                                                      (module [SnapshotJob])

    A JavaScript [number] is an IEEE-754 binary64 value, which is what
    Rocq's primitive [float] is: arithmetic and comparisons are the
    primitive ones, so a concrete evaluation below is the value a
    JavaScript engine computes.  Calendar years, the forecast horizon and
    array indices are integers ([Z], [nat]).  A [throw] is the [Throw]
    branch of [completion]; a [try]/[catch] is a match on it.  The batch
    job acts on a state holding the snapshot cache, the console and the
    database connection; the database client is a record of functions. *)

From Stdlib Require Import String Ascii DecimalString ZArith List Bool Lia Floats.
Import ListNotations.

Set Warnings "-inexact-float".

(* ------------------------------------------------------------------ *)
(** ** JavaScript prelude *)

Module JS.

Open Scope float_scope.

(** A value that may be a number, [null] or [undefined]. *)
Inductive value : Type :=
| Num (x : float)
| Null
| Undefined.

(** ToNumber on the values above. *)
Definition to_number (v : value) : float :=
  match v with
  | Num x => x
  | Null => 0
  | Undefined => nan
  end.

(** ToBoolean of a number: [0], [-0] and [NaN] are falsy. *)
Definition truthy (x : float) : bool := negb ((x =? 0) || is_nan x).

(** [x || d] where [x] is a number. *)
Definition or_else (x d : float) : float := if truthy x then x else d.

(** The number holding an array length or a loop counter. *)
Definition of_nat (n : nat) : float := of_uint63 (Uint63.of_Z (Z.of_nat n)).

(** [arr[i]] for an integer index: [undefined] out of range. *)
Definition index (arr : list float) (i : Z) : value :=
  if (i <? 0)%Z then Undefined
  else match nth_error arr (Z.to_nat i) with
       | Some x => Num x
       | None => Undefined
       end.

(** [arr[i]] used as an operand of arithmetic, [i] a loop counter. *)
Definition get (arr : list float) (i : nat) : float := nth i arr nan.

(** [arr.map((x, i) => f x i)]. *)
Fixpoint mapi_from {A B : Type} (f : A -> nat -> B) (start : nat) (l : list A) : list B :=
  match l with
  | [] => []
  | x :: l' => f x start :: mapi_from f (S start) l'
  end.

Definition mapi {A B : Type} (f : A -> nat -> B) (l : list A) : list B :=
  mapi_from f 0 l.

(** [arr.slice(1)]. *)
Definition slice1 {A : Type} (l : list A) : list A := skipn 1 l.

(** [arr.reduce((sum, x) => sum + x, 0)]. *)
Definition reduce_sum (l : list float) : float :=
  fold_left (fun sum x => sum + x) l 0.

(** Outcome of running a function body: a returned value or a thrown
    [Error] carrying its message. *)
Inductive completion (A : Type) : Type :=
| Return (a : A)
| Throw (message : string).

Arguments Return {A} a.
Arguments Throw {A} message.

Definition bind {A B : Type} (c : completion A) (k : A -> completion B) : completion B :=
  match c with
  | Return a => k a
  | Throw m => Throw m
  end.

End JS.

Import JS.

Declare Scope js_scope.
Notation "x <- c ;; k" := (JS.bind c (fun x => k))
  (at level 61, c at next level, right associativity) : js_scope.

(* ------------------------------------------------------------------ *)
(** ** Holt-Winters forecaster *)

Module HoltWinters.

Open Scope float_scope.
Open Scope js_scope.

Record HoltWintersParams : Type := {
  alpha : float;
  beta : float
}.

Record ConfidenceBands : Type := {
  lower : list float;
  upper : list float
}.

Record ProjectionResult : Type := {
  forecast : list float;
  confidenceBands : ConfidenceBands;
  mape : float
}.

Record TimeSeriesPoint : Type := {
  period : Z;
  value : float
}.

(** Default arguments of [holtWintersForecast]. *)
Definition default_periods : Z := 10.
Definition default_params : HoltWintersParams := {| alpha := 0.3; beta := 0.1 |}.

(** The variables the smoothing loop updates. *)
Record SmoothState : Type := {
  level : float;
  trend : float;
  smoothed : list float
}.

(** Body of [for (let i = 1; i < n; i++)]. *)
Definition smooth_body (params : HoltWintersParams) (values : list float)
           (st : SmoothState) (i : nat) : SmoothState :=
  let prevLevel := level st in
  let level' := alpha params * get values i
                + (1 - alpha params) * (level st + trend st) in
  let trend' := beta params * (level' - prevLevel)
                + (1 - beta params) * trend st in
  {| level := level'; trend := trend'; smoothed := smoothed st ++ [level'] |}.

Definition smooth_loop (params : HoltWintersParams) (values : list float) : SmoothState :=
  let n := length values in
  let level0 := get values 0 in
  let trend0 := if (1 <? length values)%nat then get values 1 - get values 0 else 0 in
  fold_left (smooth_body params values) (seq 1 (n - 1))
            {| level := level0; trend := trend0; smoothed := [level0] |}.

(** [for (let i = 1; i <= periods; i++) forecast.push(level + i * trend)]. *)
Definition forecast_loop (periods : Z) (level trend : float) : list float :=
  fold_left (fun forecast i => forecast ++ [level + JS.of_nat i * trend])
            (seq 1 (Z.to_nat periods)) [].

(** [periods] is the horizon as an integer count (every caller passes
    10); a horizon below 1 leaves the forecast empty. *)
Definition holtWintersForecast (data : list TimeSeriesPoint) (periods : Z)
           (params : HoltWintersParams) : completion ProjectionResult :=
  if (length data <? 2)%nat then
    Throw "Need at least 2 data points for forecasting"
  else
    let values := map value data in
    let st := smooth_loop params values in
    let forecast := forecast_loop periods (level st) (trend st) in
    let errors := mapi (fun actual i =>
                          abs ((actual - get (smoothed st) i) / actual) * 100)
                       (slice1 values) in
    let mape := reduce_sum errors / JS.of_nat (length errors) in
    let confidenceBands :=
      {| lower := map (fun f => f * (1 - mape / 100)) forecast;
         upper := map (fun f => f * (1 + mape / 100)) forecast |} in
    Return {| forecast := forecast;
              confidenceBands := confidenceBands;
              mape := mape |}.

Record Projections : Type := {
  income : ProjectionResult;
  population : ProjectionResult;
  age : ProjectionResult
}.

(** The object literal evaluates its three calls in order; the first
    throw leaves the function. *)
Definition generateProjections (incomeData populationData ageData : list TimeSeriesPoint)
  : completion Projections :=
  i <- holtWintersForecast incomeData 10 default_params ;;
  p <- holtWintersForecast populationData 10 default_params ;;
  a <- holtWintersForecast ageData 10 default_params ;;
  Return {| income := i; population := p; age := a |}.

Record HhIncomeIdx : Type := { hh_income_idx_of : JS.value }.

Record ApiProjection : Type := {
  population_idx : JS.value;
  hh_income_idx : JS.value;
  age_median : JS.value;
  p25 : HhIncomeIdx;
  p75 : HhIncomeIdx
}.

Definition formatProjectionForAPI (result : ProjectionResult) (baseYear : Z)
  : ApiProjection :=
  let finalYear := (baseYear + 10)%Z in
  let finalForecast :=
    JS.index (forecast result) (Z.of_nat (length (forecast result)) - 1) in
  let finalLower :=
    JS.index (lower (confidenceBands result))
             (Z.of_nat (length (lower (confidenceBands result))) - 1) in
  let finalUpper :=
    JS.index (upper (confidenceBands result))
             (Z.of_nat (length (upper (confidenceBands result))) - 1) in
  {| population_idx := finalForecast;
     hh_income_idx := finalForecast;
     age_median := finalForecast;
     p25 := {| hh_income_idx_of := finalLower |};
     p75 := {| hh_income_idx_of := finalUpper |} |}.

End HoltWinters.

(* ------------------------------------------------------------------ *)
(** ** CAGR calculator *)

Module Cagr.

Open Scope float_scope.

Record CAGRResult : Type := {
  cagr : float;
  years : float;
  startValue : float;
  endValue : float
}.

Inductive GrowthTrend : Type := growing | declining | stable.

Section WithPow.

  (** [Math.pow] is a builtin of the host; the functions take it as a
      parameter. *)
Variable Math_pow : float -> float -> float.

Definition calculateCAGR (startValue endValue years : float) : float :=
    if (startValue <=? 0) || (endValue <=? 0) || (years <=? 0) then 0
    else Math_pow (endValue / startValue) (1 / years) - 1.

Definition calculateCAGRWithMetadata (startValue endValue years : float) : CAGRResult :=
    {| cagr := calculateCAGR startValue endValue years;
       years := years;
       startValue := startValue;
       endValue := endValue |}.

End WithPow.

Definition classifyGrowthTrend (cagr : float) : GrowthTrend :=
  if 0.02 <? cagr then growing
  else if cagr <? -0.02 then declining
  else stable.

End Cagr.

(* ------------------------------------------------------------------ *)
(** ** CAGR formatter *)

Module CagrFormat.

Open Scope float_scope.

(** Digits of the decimal representation of [n >= 0], without leading
    zeroes; ["0"] for 0. *)
Definition decimal_digits (n : Z) : string :=
  NilZero.string_of_uint (N.to_uint (Z.to_N n)).

Fixpoint zeros (count : nat) : string :=
  match count with
  | O => EmptyString
  | S count' => String "0" (zeros count')
  end.

(** For [x = m * 2^e], the integer [n] for which [n / 10^f - x] is as
    close to zero as possible, the larger one when there are two. *)
Definition nearest_scaled (m : positive) (e : Z) (f : nat) : Z :=
  let scaled := (Z.pos m * 10 ^ Z.of_nat f)%Z in
  if (0 <=? e)%Z then (scaled * 2 ^ e)%Z
  else ((2 * scaled + 2 ^ (- e)) / (2 * 2 ^ (- e)))%Z.

(** Is [m * 2^e >= 10^21]? *)
Definition at_least_1e21 (m : positive) (e : Z) : bool :=
  if (0 <=? e)%Z then (10 ^ 21 <=? Z.pos m * 2 ^ e)%Z
  else (10 ^ 21 * 2 ^ (- e) <=? Z.pos m)%Z.

(** The digits of [n] with a point before the last [f] of them, padded
    with zeroes on the left when there are not more than [f]. *)
Definition fixed_digits (n : Z) (f : nat) : string :=
  let m := decimal_digits n in
  if (f =? 0)%nat then m
  else
    let m := if (String.length m <=? f)%nat
             then String.append (zeros (f + 1 - String.length m)) m
             else m in
    let k := String.length m in
    String.append (substring 0 (k - f) m)
                  (String.append "." (substring (k - f) f m)).

Section WithToString.

(** [Number::toString] is a builtin of the host; [toFixed] hands it the
    magnitudes of 10^21 and above. *)
Variable Number_toString : float -> string.

(** [x.toFixed(f)] for [0 <= f <= 100], after the language standard. *)
Definition toFixed (x : float) (f : nat) : string :=
  match Prim2SF x with
  | S754_nan => "NaN"
  | S754_infinity false => "Infinity"
  | S754_infinity true => "-Infinity"
  | S754_zero _ => fixed_digits 0 f
  | S754_finite negative m e =>
      let s := if negative then "-"%string else EmptyString in
      if at_least_1e21 m e then String.append s (Number_toString (abs x))
      else String.append s (fixed_digits (nearest_scaled m e f) f)
  end.

Definition formatCAGR (cagr : float) : string :=
  let percentage := cagr * 100 in
  let sign := if 0 <=? percentage then "+"%string else EmptyString in
  String.append sign (String.append (toFixed percentage 1) "%").

End WithToString.

End CagrFormat.

(* ------------------------------------------------------------------ *)
(** ** Migration signal analyser *)

Module MigrationSignal.

Open Scope float_scope.

Inductive Trend : Type := increasing | decreasing | stable.
Inductive Confidence : Type := high | medium | low.

Record MigrationSignal : Type := {
  netMigration : float;
  rollingAverage : float;
  trend : Trend;
  confidence : Confidence
}.

Record MigrationDataPoint : Type := {
  year : Z;
  netMigration1834 : float
}.

Definition calculateRollingAverage (data : list MigrationDataPoint) (currentYear : Z) : float :=
  let recentYears :=
    map netMigration1834
        (filter (fun d => (year d >=? currentYear - 2)%Z && (year d <=? currentYear)%Z) data) in
  if (length recentYears =? 0)%nat then 0
  else reduce_sum recentYears / JS.of_nat (length recentYears).

(** [currentYear] defaults to the wall-clock year at the call; the
    embedding takes it as an argument.  Years are integers: the
    subtractions below are those of the source where the years involved
    are safe integers. *)
Definition analyzeMigrationSignal (data : list MigrationDataPoint) (currentYear : Z)
  : MigrationSignal :=
  let currentData := find (fun d => (year d =? currentYear)%Z) data in
  let rollingAverage := calculateRollingAverage data currentYear in
  let recentAverage := calculateRollingAverage data currentYear in
  let previousAverage := calculateRollingAverage data (currentYear - 3) in
  let trend :=
    if previousAverage + 10 <? recentAverage then increasing
    else if recentAverage <? previousAverage - 10 then decreasing
    else stable in
  let dataPoints :=
    length (filter (fun d => (year d >=? currentYear - 4)%Z) data) in
  let confidence :=
    if (4 <=? dataPoints)%nat && (20 <? abs (recentAverage - previousAverage)) then high
    else if (3 <=? dataPoints)%nat then medium
    else low in
  {| netMigration := match currentData with
                     | Some d => or_else (netMigration1834 d) 0
                     | None => 0
                     end;
     rollingAverage := rollingAverage;
     trend := trend;
     confidence := confidence |}.

Definition generateMigrationDescription (signal : MigrationSignal) : string :=
  let description :=
    if 50 <? rollingAverage signal then "Significant influx of young adults"%string
    else if 10 <? rollingAverage signal then "Moderate influx of young adults"%string
    else if rollingAverage signal <? -50 then "Significant outflow of young adults"%string
    else if rollingAverage signal <? -10 then "Moderate outflow of young adults"%string
    else "Stable young adult population"%string in
  let description :=
    match trend signal with
    | increasing => String.append description " (trending upward)"
    | decreasing => String.append description " (trending downward)"
    | stable => description
    end in
  match confidence signal with
  | low => String.append description " (limited data)"
  | _ => description
  end.

End MigrationSignal.

(* ------------------------------------------------------------------ *)
(** ** Snapshot builder: the projection step *)

Module SnapshotBuilder.

Import HoltWinters.
Open Scope float_scope.
Open Scope js_scope.

(** One element of the arrays [getLatestMetricData] returns; [period]
    is a [Date], of which the code reads [getFullYear()] only. *)
Record Observation : Type := {
  period_fullYear : Z;
  obs_value : float
}.

Record ProjectionData : Type := {
  data_income : list Observation;
  data_age : list Observation
}.

Record Quartile : Type := { quartile_hh_income_idx : float }.

Record Proj10 : Type := {
  population_idx : float;
  hh_income_idx : float;
  age_median : JS.value;
  p25 : Quartile;
  p75 : Quartile
}.

(** A [console.warn] call: the text and the error's message. *)
Record Warning : Type := {
  warn_text : string;
  warn_error : string
}.

(** The record built in the [catch] block. *)
Definition fallback : Proj10 :=
  {| population_idx := 1.0;
     hh_income_idx := 1.0;
     age_median := Null;
     p25 := {| quartile_hh_income_idx := 1.0 |};
     p75 := {| quartile_hh_income_idx := 1.0 |} |}.

Definition to_point (d : Observation) : TimeSeriesPoint :=
  {| period := period_fullYear d; value := obs_value d |}.

(** [arr[arr.length - 1]]. *)
Definition last_of (arr : list float) : JS.value :=
  JS.index arr (Z.of_nat (length arr) - 1).

(** [data.income[0]?.value]. *)
Definition first_value (arr : list Observation) : JS.value :=
  match arr with
  | d :: _ => Num (obs_value d)
  | [] => Undefined
  end.

(** The [try] block. *)
Definition projections_body (data : ProjectionData) : completion Proj10 :=
  incomeProjection <- holtWintersForecast (map to_point (data_income data)) 10 default_params ;;
  ageProjection <- holtWintersForecast (map to_point (data_age data)) 10 default_params ;;
  Return
    {| population_idx := 1.06;
       hh_income_idx :=
         or_else (to_number (last_of (forecast incomeProjection))
                  / to_number (first_value (data_income data))) 1.0;
       age_median := last_of (forecast ageProjection);
       p25 := {| quartile_hh_income_idx :=
                   or_else (to_number (last_of (lower (confidenceBands incomeProjection)))
                            / to_number (first_value (data_income data))) 1.0 |};
       p75 := {| quartile_hh_income_idx :=
                   or_else (to_number (last_of (upper (confidenceBands incomeProjection)))
                            / to_number (first_value (data_income data))) 1.0 |} |}.

(** [try { ... } catch (error) { console.warn(...); return fallback }]:
    the completion of the function body together with what it wrote
    to the console. *)
Definition calculateProjections (geoId : string) (data : ProjectionData)
  : completion Proj10 * list Warning :=
  match projections_body data with
  | Return r => (Return r, [])
  | Throw error =>
      (Return fallback,
       [{| warn_text :=
             String.append "Failed to calculate projections for "
                           (String.append geoId ":");
           warn_error := error |}])
  end.

End SnapshotBuilder.

(* ------------------------------------------------------------------ *)
(** ** Snapshot builder: the batch job *)

Module SnapshotJob.

Import HoltWinters SnapshotBuilder.
Open Scope float_scope.

Record GeoArea : Type := {
  geoId : string;
  name : string
}.

Record Industry : Type := {
  naics : string;
  industry_name : string;
  industry_cagr : float
}.

Record EmploymentTrends : Type := {
  totalGrowth : JS.value;
  topGrowing : list Industry;
  topDeclining : list Industry
}.

(** A valid date is an instant on the clock. *)
Definition Date : Type := Z.

(** A [Date] object as a caller may hand it over: [new Date(NaN)] and
    the like are Invalid Date. *)
Inductive DateObject : Type :=
| ValidDate (instant : Date)
| InvalidDate.

(** [d.toISOString()]: the text of a valid date, which the embedding
    identifies with its instant; a [RangeError] on an Invalid Date. *)
Definition toISOString (d : DateObject) : completion Date :=
  match d with
  | ValidDate instant => Return instant
  | InvalidDate => Throw "Invalid time value"
  end.

Record SnapshotMetrics : Type := {
  snapshot_geoId : string;
  asof : Date;
  incomePerCapita : JS.value;
  hhIncomeMedian : JS.value;
  ageMedian : JS.value;
  netMigration1834 : JS.value;
  empGrowth5y : JS.value;
  snapshot_topGrowing : list Industry;
  snapshot_topDeclining : list Industry;
  proj10 : Proj10
}.

(** An absent field is [None]; an element of [geoIds] read past the end
    of the argument list is [None] too. *)
Record SnapshotBuilderConfig : Type := {
  asofDate : option DateObject;
  geoIds : option (list (option string));
  forceRebuild : option bool
}.

(** What the job writes to the console, one constructor per message. *)
Inductive ConsoleLine : Type :=
| LogBuilding (asofDate : Date)
| LogProcessing (count : nat)
| LogBuilt (name geoId : string)
| ErrorFailedGeo (geoId : string) (error : string)
| LogCompleted
| ErrorBuildingFailed (error : string)
| WarnProjections (w : Warning)
| LogCompletedSuccessfully.

(** The database client and the clock, as the job uses them.  Reads of
    the metric tables do not depend on the snapshot cache.
    [metricObs_findMany seriesId geoId years] is the query for the
    observations of the series in the geography from [years] years
    before the clock on, ascending by period; [snapshotCache_upsert]
    takes the compound key and the snapshot whose fields fill both the
    [update] and the [create] part. *)
Record Host (Store : Type) : Type := {
  Date_now : Date;
  geoArea_findMany : option (list (option string)) -> completion (list GeoArea);
  metricSeries_findUnique : string -> completion (option Z);
  metricObs_findMany : Z -> string -> Z -> completion (list Observation);
  snapshotCache_upsert : string * Date -> SnapshotMetrics -> Store -> completion Store
}.

Arguments Date_now {Store} _.
Arguments geoArea_findMany {Store} _ _.
Arguments metricSeries_findUnique {Store} _ _.
Arguments metricObs_findMany {Store} _ _ _ _.
Arguments snapshotCache_upsert {Store} _ _ _ _.

(** The state the job acts on. *)
Record World (Store : Type) : Type := {
  cache : Store;
  console : list ConsoleLine;
  connected : bool
}.

Arguments cache {Store} _.
Arguments console {Store} _.
Arguments connected {Store} _.

Section WithHost.

Context {Store : Type}.
Variable prisma : Host Store.

(** An asynchronous function of the job: from a state to a completion
    and the state it leaves. *)
Definition M (A : Type) : Type := World Store -> completion A * World Store.

Definition ret {A : Type} (a : A) : M A := fun w => (Return a, w).

Definition throw {A : Type} (error : string) : M A := fun w => (Throw error, w).

Definition bindM {A B : Type} (m : M A) (k : A -> M B) : M B :=
  fun w =>
    match m w with
    | (Return a, w') => k a w'
    | (Throw error, w') => (Throw error, w')
    end.

Definition try_catch {A : Type} (body : M A) (handler : string -> M A) : M A :=
  fun w =>
    match body w with
    | (Return a, w') => (Return a, w')
    | (Throw error, w') => handler error w'
    end.

Definition try_finally {A : Type} (body : M A) (finalizer : M unit) : M A :=
  fun w =>
    match body w with
    | (result, w') =>
        match finalizer w' with
        | (Return _, w'') => (result, w'')
        | (Throw error, w'') => (Throw error, w'')
        end
    end.

(** A read of the database: the state is left as it is. *)
Definition await_read {A : Type} (c : completion A) : M A := fun w => (c, w).

(** An expression that may throw: the state is left as it is. *)
Definition evaluate {A : Type} (c : completion A) : M A := fun w => (c, w).

Definition console_write (line : ConsoleLine) : M unit :=
  fun w => (Return tt,
            {| cache := cache w; console := console w ++ [line]; connected := connected w |}).

Definition disconnect : M unit :=
  fun w => (Return tt, {| cache := cache w; console := console w; connected := false |}).

Fixpoint for_of {A : Type} (items : list A) (body : A -> M unit) : M unit :=
  match items with
  | [] => ret tt
  | item :: items' => bindM (body item) (fun _ => for_of items' body)
  end.

(** An unknown series gives the empty array; [Number(obs.value)] is the
    value of the observation as a number, which [obs_value] holds. *)
Definition getLatestMetricData (geoId metricCode : string) (years : Z)
  : completion (list Observation) :=
  JS.bind (metricSeries_findUnique prisma metricCode) (fun series =>
    match series with
    | None => Return []
    | Some series_id =>
        JS.bind (metricObs_findMany prisma series_id geoId years) (fun observations =>
          Return (map (fun obs => {| period_fullYear := period_fullYear obs;
                                     obs_value := obs_value obs |})
                      observations))
    end).

Definition getMigrationData (geoId : string) (years : Z) : completion (list Observation) :=
  getLatestMetricData geoId "net_migration_18_34" years.

Definition getEmploymentTrends (geoId : string) (years : Z) : completion EmploymentTrends :=
  Return {| totalGrowth := Num 0.021;
            topGrowing :=
              [{| naics := "62"; industry_name := "Health Care"; industry_cagr := 0.037 |};
               {| naics := "54"; industry_name := "Professional Services";
                  industry_cagr := 0.025 |}];
            topDeclining :=
              [{| naics := "31-33"; industry_name := "Manufacturing";
                  industry_cagr := -0.015 |};
               {| naics := "23"; industry_name := "Construction";
                  industry_cagr := -0.008 |}] |}.

(** [arr.length > 0 ? Number(arr[arr.length - 1].value) : null]. *)
Definition latest_or_null (arr : list Observation) : JS.value :=
  if (0 <? length arr)%nat then
    match nth_error arr (length arr - 1) with
    | Some d => Num (obs_value d)
    | None => Num nan
    end
  else Null.

(** [await calculateProjections(...)]: its warnings go to the console. *)
Definition await_projections (geoId : string) (data : ProjectionData) : M Proj10 :=
  fun w =>
    (fst (calculateProjections geoId data),
     {| cache := cache w;
        console := console w ++ map WarnProjections (snd (calculateProjections geoId data));
        connected := connected w |}).

Definition buildSnapshotForGeo (geoId : string) (asofDate : Date)
  : M (option SnapshotMetrics) :=
  bindM (await_read (getLatestMetricData geoId "hh_income_median" 5)) (fun incomeData =>
  bindM (await_read (getLatestMetricData geoId "income_per_capita" 5)) (fun perCapitaData =>
  bindM (await_read (getLatestMetricData geoId "age_median" 5)) (fun ageData =>
  bindM (await_read (getMigrationData geoId 5)) (fun migrationData =>
  bindM (await_read (getEmploymentTrends geoId 5)) (fun employmentData =>
  bindM (await_projections geoId {| data_income := incomeData; data_age := ageData |})
        (fun projections =>
  ret (Some {| snapshot_geoId := geoId;
               asof := asofDate;
               incomePerCapita := latest_or_null perCapitaData;
               hhIncomeMedian := latest_or_null incomeData;
               ageMedian := latest_or_null ageData;
               netMigration1834 := latest_or_null migrationData;
               empGrowth5y := totalGrowth employmentData;
               snapshot_topGrowing := topGrowing employmentData;
               snapshot_topDeclining := topDeclining employmentData;
               proj10 := projections |}))))))).

Definition upsertSnapshot (snapshot : SnapshotMetrics) : M unit :=
  fun w =>
    match snapshotCache_upsert prisma (snapshot_geoId snapshot, asof snapshot)
                               snapshot (cache w) with
    | Return cache' =>
        (Return tt, {| cache := cache'; console := console w; connected := connected w |})
    | Throw error => (Throw error, w)
    end.

(** Body of [for (const geoArea of geoAreas)]. *)
Definition build_one (asofDate : Date) (geoArea : GeoArea) : M unit :=
  try_catch
    (bindM (buildSnapshotForGeo (geoId geoArea) asofDate) (fun snapshot =>
       match snapshot with
       | Some snapshot =>
           bindM (upsertSnapshot snapshot) (fun _ =>
             console_write (LogBuilt (name geoArea) (geoId geoArea)))
       | None => ret tt
       end))
    (fun error => console_write (ErrorFailedGeo (geoId geoArea) error)).

(** The first statement of the [try] block renders [asofDate] with
    [toISOString]; past it the date is valid, and the loop works with
    its instant. *)
Definition buildSnapshots (config : SnapshotBuilderConfig) : M unit :=
  let asofDate := match asofDate config with
                  | Some d => d
                  | None => ValidDate (Date_now prisma)
                  end in
  try_finally
    (try_catch
       (bindM (evaluate (toISOString asofDate)) (fun asofInstant =>
        bindM (console_write (LogBuilding asofInstant)) (fun _ =>
        bindM (await_read (geoArea_findMany prisma (geoIds config))) (fun geoAreas =>
        bindM (console_write (LogProcessing (length geoAreas))) (fun _ =>
        bindM (for_of geoAreas (build_one asofInstant)) (fun _ =>
        console_write LogCompleted))))))
       (fun error =>
          bindM (console_write (ErrorBuildingFailed error)) (fun _ => throw error)))
    disconnect.

(** [args.indexOf(x)]: the first position of [x], or [-1]. *)
Fixpoint indexOf (args : list string) (x : string) : Z :=
  match args with
  | [] => (-1)%Z
  | a :: args' =>
      if String.eqb a x then 0%Z
      else if (indexOf args' x <? 0)%Z then (-1)%Z
           else (indexOf args' x + 1)%Z
  end.

Definition includes (args : list string) (x : string) : bool :=
  existsb (fun a => String.eqb a x) args.

(** [args[i]] for an integer index: [undefined] ([None]) out of range. *)
Definition arg_at (args : list string) (i : Z) : option string :=
  if (i <? 0)%Z then None else nth_error args (Z.to_nat i).

(** The configuration the command line entry point builds from
    [process.argv.slice(2)]. *)
Definition cli_config (args : list string) : SnapshotBuilderConfig :=
  {| asofDate := None;
     geoIds :=
       if includes args "--geo-id" then
         let geoIdIndex := indexOf args "--geo-id" in
         Some [arg_at args (geoIdIndex + 1)]
       else None;
     forceRebuild := if includes args "--force" then Some true else None |}.

(** The entry point: the exit code and the state left. *)
Definition cli_main (args : list string) : M Z :=
  fun w =>
    match buildSnapshots (cli_config args) w with
    | (Return _, w') =>
        (Return 0%Z,
         {| cache := cache w';
            console := console w' ++ [LogCompletedSuccessfully];
            connected := connected w' |})
    | (Throw error, w') =>
        (Return 1%Z,
         {| cache := cache w';
            console := console w' ++ [ErrorBuildingFailed error];
            connected := connected w' |})
    end.

End WithHost.

End SnapshotJob.

(* ------------------------------------------------------------------ *)
(** ** The specification's formulas, written from its text *)

Module Spec.

Import HoltWinters MigrationSignal.
Open Scope float_scope.

(** Arithmetic mean of a sequence, summed left to right. *)
Definition mean (l : list float) : float :=
  fold_left PrimFloat.add l 0 / JS.of_nat (length l).

(** Section 4.3, step 2: one update per subsequent point; the result
    is the final level/trend pair. *)
Fixpoint smooth (alpha beta level trend : float) (points : list float) : float * float :=
  match points with
  | [] => (level, trend)
  | v :: points' =>
      let newLevel := alpha * v + (1 - alpha) * (level + trend) in
      let newTrend := beta * (newLevel - level) + (1 - beta) * trend in
      smooth alpha beta newLevel newTrend points'
  end.

(** Section 4.3, step 2: the fitted value recorded for each
    subsequent point. *)
Fixpoint fitted (alpha beta level trend : float) (points : list float) : list float :=
  match points with
  | [] => []
  | v :: points' =>
      let newLevel := alpha * v + (1 - alpha) * (level + trend) in
      let newTrend := beta * (newLevel - level) + (1 - beta) * trend in
      newLevel :: fitted alpha beta newLevel newTrend points'
  end.

(** Section 4.3, step 1. *)
Definition initial_level (values : list float) : float := hd nan values.

Definition initial_trend (values : list float) : float :=
  match values with
  | v0 :: v1 :: _ => v1 - v0
  | _ => 0
  end.

(** Steps 1 and 2 together: the level/trend pair after the last point. *)
Definition final_level_trend (alpha beta : float) (values : list float) : float * float :=
  smooth alpha beta (initial_level values) (initial_trend values) (tl values).

(** The smoothed series: the first value, then the fitted values. *)
Definition smoothed_series (alpha beta : float) (values : list float) : list float :=
  initial_level values
    :: fitted alpha beta (initial_level values) (initial_trend values) (tl values).

(** Absolute percentage error of one point, as the specification
    writes it: [|actual - fitted| / actual * 100]. *)
Definition ape_as_written (actual fitted : float) : float :=
  abs (actual - fitted) / actual * 100.

(** Absolute percentage error with the absolute value around the
    quotient: [|(actual - fitted) / actual| * 100]. *)
Definition ape_of_quotient (actual fitted : float) : float :=
  abs ((actual - fitted) / actual) * 100.

(** Errors of the actual values paired, in order, with the values
    they are compared against. *)
Fixpoint pair_errors (err : float -> float -> float) (actuals against : list float)
  : list float :=
  match actuals, against with
  | a :: actuals', f :: against' => err a f :: pair_errors err actuals' against'
  | _, _ => []
  end.

(** Step 4: [values[i]], [i >= 1], is compared against
    [smoothed[i-1]]; the mean of the errors is the MAPE. *)
Definition mape_with (err : float -> float -> float) (alpha beta : float)
           (values : list float) : float :=
  mean (pair_errors err (tl values) (smoothed_series alpha beta values)).

(** Years are integers.  The source holds them as binary64 numbers,
    whose arithmetic and comparisons are exact on the integers of
    magnitude up to [2^53 - 1] ([Number.MAX_SAFE_INTEGER]); a statement
    that depends on the bound of a window is made for such years. *)
Definition safe_year (y : Z) : Prop := (- (2 ^ 53 - 1) <= y <= 2 ^ 53 - 1)%Z.

Definition safe_years (data : list MigrationDataPoint) : Prop :=
  Forall (fun d => safe_year (year d)) data.

(** Section 4.2: the inclusive 3-year trailing window. *)
Definition in_window (y : Z) (d : MigrationDataPoint) : Prop :=
  (y - 2 <= year d <= y)%Z.

Definition in_window_dec (y : Z) (d : MigrationDataPoint)
  : {in_window y d} + {~ in_window y d}.
Proof.
  unfold in_window.
  destruct (Z_le_dec (y - 2) (year d)); [|right; lia].
  destruct (Z_le_dec (year d) y); [left; lia|right; lia].
Defined.

Definition window_points (data : list MigrationDataPoint) (y : Z) : list MigrationDataPoint :=
  filter (fun d => if in_window_dec y d then true else false) data.

Definition rolling_average (data : list MigrationDataPoint) (y : Z) : float :=
  match window_points data y with
  | [] => 0
  | pts => mean (map netMigration1834 pts)
  end.

(** Section 4.2: trend of a later average against an earlier one. *)
Definition classify_trend (later earlier : float) : Trend :=
  if earlier + 10 <? later then increasing
  else if later <? earlier - 10 then decreasing
  else stable.

End Spec.

(* ------------------------------------------------------------------ *)
(** ** Sample inputs *)

Module Samples.

Import HoltWinters.
Open Scope float_scope.

Definition pt (p : Z) (v : float) : TimeSeriesPoint := {| period := p; value := v |}.

Definition rising : list TimeSeriesPoint := [pt 2020 10; pt 2021 20; pt 2022 30].

Definition falling_below_zero : list TimeSeriesPoint := [pt 2020 (-1); pt 2021 (-2)].

Definition halves : HoltWintersParams := {| alpha := 0.5; beta := 0.5 |}.

Definition ramp : ProjectionResult :=
  {| forecast := [1; 2; 3];
     confidenceBands := {| lower := [0.5; 1; 1.5]; upper := [1.5; 3; 4.5] |};
     mape := 50 |}.

Definition short_series : list TimeSeriesPoint := [pt 2024 7].

Definition mk (y : Z) (v : float) : MigrationSignal.MigrationDataPoint :=
{| MigrationSignal.year := y; MigrationSignal.netMigration1834 := v |}.

Definition three_years : list MigrationSignal.MigrationDataPoint :=
[mk 2022 10; mk 2023 20; mk 2024 30].

Definition jump : list MigrationSignal.MigrationDataPoint :=
[mk 2021 0; mk 2024 100].

Definition obs (y : Z) (v : float) : SnapshotBuilder.Observation :=
{| SnapshotBuilder.period_fullYear := y; SnapshotBuilder.obs_value := v |}.

Definition no_age_history : SnapshotBuilder.ProjectionData :=
{| SnapshotBuilder.data_income := [obs 2020 100; obs 2021 110];
   SnapshotBuilder.data_age := [obs 2021 30] |}.

(** A function that agrees with [Math.pow] where the result is plain:
  exponent 1 gives the base, base 1 gives 1; it is undetermined
  elsewhere. *)
Definition pow_plain_cases (base exponent : float) : float :=
if exponent =? 1 then base
else if base =? 1 then 1
else nan.

End Samples.

(* ------------------------------------------------------------------ *)
(** ** Tests on texts, and a sample database *)

Module Text.

(** [s.endsWith(suffix)]. *)
Definition ends_with (s suffix : string) : bool :=
  (String.length suffix <=? String.length s)%nat
  && String.eqb (substring (String.length s - String.length suffix)
                           (String.length suffix) s) suffix.

(** [s.includes(word)]. *)
Definition mentions (s word : string) : bool :=
  match String.index 0%nat word s with
  | Some _ => true
  | None => false
  end.

End Text.

Module JobView.

Import SnapshotJob.

(** The state [w] after [lines] were written to the console. *)
Definition written {Store : Type} (w : World Store) (lines : list ConsoleLine) : World Store :=
  {| cache := cache w; console := console w ++ lines; connected := connected w |}.

(** Is the line the report on one geography, built or failed? *)
Definition reports_geo (line : ConsoleLine) : bool :=
  match line with
  | LogBuilt _ _ | ErrorFailedGeo _ _ => true
  | _ => false
  end.

Definition geo_reports (lines : list ConsoleLine) : nat :=
  length (filter reports_geo lines).

(** The instant of the as-of date a run works with: the configured
    date when it is valid, the clock when none is configured, and none
    when the configured date is an Invalid Date. *)
Definition asof_instant {Store : Type} (prisma : Host Store) (config : SnapshotBuilderConfig)
  : option Date :=
  match asofDate config with
  | None => Some (Date_now prisma)
  | Some (ValidDate instant) => Some instant
  | Some InvalidDate => None
  end.

End JobView.

Module JobSamples.

Import SnapshotBuilder SnapshotJob Samples.
Open Scope float_scope.

(** A cache table as the list of its rows, newest first; an upsert
    drops the row with the same key and adds the new one. *)
Definition Table : Type := list SnapshotMetrics.

Definition same_key (key : string * Date) (row : SnapshotMetrics) : bool :=
  String.eqb (fst key) (snapshot_geoId row) && (snd key =? asof row)%Z.

Definition table_upsert (key : string * Date) (row : SnapshotMetrics) (t : Table)
  : completion Table :=
  Return (row :: filter (fun r => negb (same_key key r)) t).

(** A database with two geographies: every read for ["bad"] fails, and
    ["good"] has three years of household income and of median age. *)
Definition sample_host : Host Table :=
  {| Date_now := 1700000000000%Z;
     geoArea_findMany := fun _ =>
       Return [{| geoId := "good"; name := "Goodland" |};
               {| geoId := "bad"; name := "Badland" |}];
     metricSeries_findUnique := fun code =>
       if String.eqb code "hh_income_median" then Return (Some 1%Z)
       else if String.eqb code "age_median" then Return (Some 2%Z)
       else Return None;
     metricObs_findMany := fun seriesId geoId years =>
       if String.eqb geoId "bad" then Throw "connection lost"
       else if (seriesId =? 1)%Z then Return [obs 2021 100; obs 2022 110; obs 2023 120]
       else Return [obs 2021 30; obs 2022 31; obs 2023 32];
     snapshotCache_upsert := table_upsert |}.

(** A database whose [geoArea] table cannot be read. *)
Definition unreachable_host : Host Table :=
  {| Date_now := 1700000000000%Z;
     geoArea_findMany := fun _ => Throw "connection refused";
     metricSeries_findUnique := fun _ => Return None;
     metricObs_findMany := fun _ _ _ => Return [];
     snapshotCache_upsert := table_upsert |}.

Definition fresh_world : World Table :=
  {| cache := []; console := []; connected := true |}.

Definition good_area : GeoArea := {| geoId := "good"; name := "Goodland" |}.
Definition bad_area : GeoArea := {| geoId := "bad"; name := "Badland" |}.

End JobSamples.

(* ------------------------------------------------------------------ *)
(** ** Facts about binary64 comparisons and absolute value *)

Section FloatFacts.

Open Scope float_scope.

Lemma SFabs_binary_round_aux prec emax s m e l :
  SFabs (binary_round_aux prec emax s m e l) = binary_round_aux prec emax false m e l.
Proof.
  unfold binary_round_aux.
  destruct (shr_fexp prec emax m e l) as [mrs' e'].
  destruct (shr_fexp prec emax _ e' loc_Exact) as [mrs'' e''].
  destruct (shr_m mrs''); try reflexivity.
  destruct (e'' <=? emax - prec)%Z; reflexivity.
Qed.

Lemma Prim2SF_zero : Prim2SF 0 = S754_zero false.
Proof. reflexivity. Qed.

(** A number above zero is [+Infinity] or a positive finite number. *)
Lemma positive_cases y :
  (0 <? y) = true ->
  Prim2SF y = S754_infinity false \/ exists m e, Prim2SF y = S754_finite false m e.
Proof.
  rewrite ltb_spec, Prim2SF_zero. unfold SFltb.
  destruct (Prim2SF y) as [[|]| [|] | | [|] m e]; simpl; try discriminate; eauto.
Qed.

(** Dividing by a positive number commutes with the absolute value,
    rounding included. *)
Lemma abs_div_pos x y : (0 <? y) = true -> abs (x / y) = abs x / y.
Proof.
  intros Hy. apply Prim2SF_inj.
  rewrite abs_spec, !div_spec, abs_spec.
  destruct (positive_cases y Hy) as [-> | (m & e & ->)];
    destruct (Prim2SF x) as [sx | sx | | sx mx ex]; simpl; try reflexivity.
  unfold SF64div, SFdiv.
  destruct (SFdiv_core_binary prec emax (Z.pos mx) ex (Z.pos m) e) as [[mz ez] lz].
  rewrite SFabs_binary_round_aux. reflexivity.
Qed.

Lemma pos_not_le0 x : (0 <? x) = true -> (x <=? 0) = false.
Proof.
  intros H. rewrite leb_spec, Prim2SF_zero.
  destruct (positive_cases x H) as [-> | (m & e & ->)]; reflexivity.
Qed.

Lemma float_neq_by_sign (x y : float) : (x <? 0) <> (y <? 0) -> x <> y.
Proof. intros H E. apply H. now rewrite E. Qed.

End FloatFacts.

(* ------------------------------------------------------------------ *)
(** ** Facts about the loops *)

Section LoopFacts.

Import HoltWinters.
Open Scope float_scope.

Lemma fold_left_push {A B : Type} (f : A -> B) (l : list A) (acc : list B) :
  fold_left (fun acc i => acc ++ [f i]) l acc = acc ++ map f l.
Proof.
  revert acc. induction l as [|x l IH]; intros acc; simpl.
  - now rewrite app_nil_r.
  - rewrite IH, <- app_assoc. reflexivity.
Qed.

Lemma forecast_loop_map periods level trend :
  forecast_loop periods level trend
  = map (fun i => level + JS.of_nat i * trend) (seq 1 (Z.to_nat periods)).
Proof. unfold forecast_loop. now rewrite fold_left_push. Qed.

Lemma forecast_loop_length periods level trend :
  length (forecast_loop periods level trend) = Z.to_nat periods.
Proof. now rewrite forecast_loop_map, length_map, length_seq. Qed.

Lemma forecast_loop_nth periods level trend i :
  (1 <= i <= Z.to_nat periods)%nat ->
  nth_error (forecast_loop periods level trend) (i - 1)
  = Some (level + JS.of_nat i * trend).
Proof.
  intros Hi. rewrite forecast_loop_map.
  rewrite nth_error_map, nth_error_nth' with (d := O) by (rewrite length_seq; lia).
  rewrite seq_nth by lia.
  replace (1 + (i - 1))%nat with i by lia. reflexivity.
Qed.

Lemma get_middle (pre : list float) (v : float) (rest : list float) :
  get (pre ++ v :: rest) (length pre) = v.
Proof. unfold get. apply nth_middle. Qed.

(** The index loop over [pre ++ rest], started at [length pre], does
    what the recursion over [rest] does. *)
Lemma smooth_fold params (rest pre : list float) (st : SmoothState) :
  fold_left (smooth_body params (pre ++ rest)) (seq (length pre) (length rest)) st
  = {| level := fst (Spec.smooth (alpha params) (beta params) (level st) (trend st) rest);
       trend := snd (Spec.smooth (alpha params) (beta params) (level st) (trend st) rest);
       smoothed := smoothed st
                   ++ Spec.fitted (alpha params) (beta params) (level st) (trend st) rest |}.
Proof.
  revert pre st. induction rest as [|v rest IH]; intros pre st.
  - simpl. rewrite app_nil_r. now destruct st.
  - cbn [length seq fold_left].
    replace (pre ++ v :: rest) with ((pre ++ [v]) ++ rest) at 1
      by (now rewrite <- app_assoc).
    replace (S (length pre)) with (length (pre ++ [v]))
      by (rewrite length_app; simpl; lia).
    rewrite <- app_assoc. cbn [app].
    unfold smooth_body at 2. rewrite get_middle.
    replace (pre ++ v :: rest) with ((pre ++ [v]) ++ rest)
      by (now rewrite <- app_assoc).
    rewrite IH. cbn [level trend smoothed Spec.smooth Spec.fitted].
    rewrite <- app_assoc. reflexivity.
Qed.

Lemma smooth_loop_spec params (values : list float) :
  (2 <= length values)%nat ->
  smooth_loop params values
  = {| level := fst (Spec.final_level_trend (alpha params) (beta params) values);
       trend := snd (Spec.final_level_trend (alpha params) (beta params) values);
       smoothed := Spec.smoothed_series (alpha params) (beta params) values |}.
Proof.
  destruct values as [|v0 [|v1 rest]]; simpl; try lia. intros _.
  unfold smooth_loop.
  replace (length (v0 :: v1 :: rest) - 1)%nat with (length (v1 :: rest)) by (simpl; lia).
  change (v0 :: v1 :: rest) with ([v0] ++ v1 :: rest) at 1.
  change 1%nat with (length [v0]) at 2.
  rewrite smooth_fold. reflexivity.
Qed.

(** The indexed [map] reading [against[i]] pairs the two arrays. *)
Lemma mapi_from_pair (err : float -> float -> float) (actuals pre against : list float) :
  (length actuals <= length against)%nat ->
  mapi_from (fun actual i => err actual (get (pre ++ against) i)) (length pre) actuals
  = Spec.pair_errors err actuals against.
Proof.
  revert pre against. induction actuals as [|a actuals IH]; intros pre against Hlen.
  - reflexivity.
  - destruct against as [|f against]; simpl in Hlen; [lia|].
    cbn [mapi_from Spec.pair_errors]. rewrite get_middle. f_equal.
    replace (pre ++ f :: against) with ((pre ++ [f]) ++ against)
      by (now rewrite <- app_assoc).
    replace (S (length pre)) with (length (pre ++ [f]))
      by (rewrite length_app; simpl; lia).
    apply IH. lia.
Qed.

Lemma fitted_length alpha beta level trend points :
  length (Spec.fitted alpha beta level trend points) = length points.
Proof.
  revert level trend. induction points as [|v points IH]; intros; simpl; auto.
Qed.

(** Where every actual value is positive the two ways of writing the
    percentage error agree. *)
Lemma pair_errors_positive actuals against :
  Forall (fun a => (0 <? a) = true) actuals ->
  Spec.pair_errors Spec.ape_of_quotient actuals against
  = Spec.pair_errors Spec.ape_as_written actuals against.
Proof.
  intros H. revert against. induction H as [|a actuals Ha _ IH]; intros [|f against];
    simpl; try reflexivity.
  rewrite IH. unfold Spec.ape_of_quotient, Spec.ape_as_written.
  now rewrite abs_div_pos.
Qed.

(** What a call with at least two points returns. *)
Lemma holtWintersForecast_returns data periods params :
  (2 <= length data)%nat ->
  let values := map value data in
  let L := fst (Spec.final_level_trend (alpha params) (beta params) values) in
  let T := snd (Spec.final_level_trend (alpha params) (beta params) values) in
  let m := Spec.mape_with Spec.ape_of_quotient (alpha params) (beta params) values in
  holtWintersForecast data periods params
  = Return {| forecast := forecast_loop periods L T;
              confidenceBands :=
                {| lower := map (fun f => f * (1 - m / 100)) (forecast_loop periods L T);
                   upper := map (fun f => f * (1 + m / 100)) (forecast_loop periods L T) |};
              mape := m |}.
Proof.
  intros Hlen values L T m. unfold holtWintersForecast.
  destruct (Nat.ltb_spec (length data) 2) as [Hlt|_]; [lia|].
  fold values.
  assert (Hv : (2 <= length values)%nat) by (unfold values; now rewrite length_map).
  rewrite (smooth_loop_spec params values Hv). cbn [level trend smoothed].
  fold L T.
  assert (Herr : mapi (fun actual i =>
                         abs ((actual - get (Spec.smoothed_series (alpha params) (beta params) values) i)
                              / actual) * 100) (slice1 values)
                 = Spec.pair_errors Spec.ape_of_quotient (tl values)
                     (Spec.smoothed_series (alpha params) (beta params) values)).
  { unfold mapi, slice1.
    replace (skipn 1 values) with (tl values) by (now destruct values).
    apply (mapi_from_pair Spec.ape_of_quotient (tl values) []).
    unfold Spec.smoothed_series. simpl. rewrite fitted_length. lia. }
  rewrite Herr. reflexivity.
Qed.

Lemma holtWintersForecast_throws data periods params :
  (length data < 2)%nat ->
  holtWintersForecast data periods params
  = Throw "Need at least 2 data points for forecasting".
Proof.
  intros H. unfold holtWintersForecast.
  destruct (Nat.ltb_spec (length data) 2); [reflexivity|lia].
Qed.

End LoopFacts.

(* ------------------------------------------------------------------ *)
(** ** The forecaster *)

Section ForecasterTheorems.

Import HoltWinters Samples.
Open Scope float_scope.

(** C3: holtWintersForecast raises an error exactly when the series has
    fewer than 2 points, whatever the horizon and the smoothing
    parameters; with 2 or more points it returns a result (there is no
    zero fallback). *)
Theorem C3_forecast_throws_iff_fewer_than_two :
  forall (data : list TimeSeriesPoint) (periods : Z) (params : HoltWintersParams),
    ((exists message, holtWintersForecast data periods params = Throw message)
     <-> (length data < 2)%nat)
    /\ ((exists result, holtWintersForecast data periods params = Return result)
        <-> (2 <= length data)%nat).
Proof.
  intros data periods params.
  destruct (Nat.lt_ge_cases (length data) 2) as [Hlt|Hge].
  - pose proof (holtWintersForecast_throws data periods params Hlt) as E.
    split; split; intros H; try lia; try (now eexists; exact E).
    destruct H as [r Hr]. congruence.
  - pose proof (holtWintersForecast_returns data periods params Hge) as E.
    cbv zeta in E.
    split; split; intros H; try lia; try (now eexists; exact E).
    destruct H as [m Hm]. congruence.
Qed.

(** C4: for a series of at least 2 points and a horizon h >= 1, the
    level and trend start at values[0] and values[1] - values[0], are
    updated over the remaining points by
    newLevel = alpha*value + (1-alpha)*(level+trend) and
    newTrend = beta*(newLevel-level) + (1-beta)*trend, and the returned
    forecast has length h with forecast[i-1] = finalLevel + i*finalTrend
    for i = 1..h. *)
Theorem C4_forecast_extrapolates_final_level_trend :
  forall (data : list TimeSeriesPoint) (h : Z) (params : HoltWintersParams),
    (2 <= length data)%nat ->
    (1 <= h)%Z ->
    exists result,
      holtWintersForecast data h params = Return result
      /\ Z.of_nat (length (forecast result)) = h
      /\ forall i, (1 <= i <= Z.to_nat h)%nat ->
           nth_error (forecast result) (i - 1)
           = Some (fst (Spec.final_level_trend (alpha params) (beta params) (map value data))
                   + JS.of_nat i
                     * snd (Spec.final_level_trend (alpha params) (beta params) (map value data))).
Proof.
  intros data h params Hlen Hh.
  eexists. split; [apply holtWintersForecast_returns; assumption|].
  cbn [forecast]. split.
  - rewrite forecast_loop_length. lia.
  - intros i Hi. now apply forecast_loop_nth.
Qed.

(** The hypotheses of C4 hold for the series 10, 20, 30 and horizon 2. *)
Lemma C4_witness :
  exists result,
    holtWintersForecast rising 2 default_params = Return result
    /\ Z.of_nat (length (forecast result)) = 2%Z
    /\ forall i, (1 <= i <= Z.to_nat 2)%nat ->
         nth_error (forecast result) (i - 1)
         = Some (fst (Spec.final_level_trend (alpha default_params) (beta default_params)
                                             (map value rising))
                 + JS.of_nat i
                   * snd (Spec.final_level_trend (alpha default_params) (beta default_params)
                                                 (map value rising))).
Proof.
  apply (C4_forecast_extrapolates_final_level_trend rising 2 default_params).
  - simpl. lia.
  - lia.
Defined.

(** C5 (as stated, refuted): with negative actual values the returned
    mape is not the mean of |actual - fitted| / actual * 100.  For the
    series -1, -2 with alpha = beta = 0.5 the code returns 50 and the
    stated formula gives -50. *)
Lemma C5_counterexample :
  (2 <= length falling_below_zero)%nat
  /\ Forall (fun v => (v =? 0) = false) (tl (map value falling_below_zero))
  /\ exists result,
       holtWintersForecast falling_below_zero 10 halves = Return result
       /\ mape result = 50
       /\ Spec.mape_with Spec.ape_as_written (alpha halves) (beta halves)
                         (map value falling_below_zero) = -50
       /\ mape result
          <> Spec.mape_with Spec.ape_as_written (alpha halves) (beta halves)
                            (map value falling_below_zero).
Proof.
  split; [simpl; lia|]. split; [repeat constructor|].
  eexists. split; [vm_compute; reflexivity|].
  cbn [mape]. split; [reflexivity|]. split; [vm_compute; reflexivity|].
  apply float_neq_by_sign. vm_compute. discriminate.
Qed.

(** C5 (amended): for a series of at least 2 points the returned mape is
    the mean, over the points values[i] with i >= 1, of
    |(values[i] - smoothed[i-1]) / values[i]| * 100, the absolute value
    being taken of the quotient; where those values are all positive this
    is the mean of |actual - fitted| / actual * 100. *)
Theorem C5_mape_is_mean_of_absolute_quotients :
  forall (data : list TimeSeriesPoint) (periods : Z) (params : HoltWintersParams),
    (2 <= length data)%nat ->
    exists result,
      holtWintersForecast data periods params = Return result
      /\ mape result
         = Spec.mape_with Spec.ape_of_quotient (alpha params) (beta params) (map value data)
      /\ (Forall (fun v => (0 <? v) = true) (tl (map value data)) ->
          mape result
          = Spec.mape_with Spec.ape_as_written (alpha params) (beta params) (map value data)).
Proof.
  intros data periods params Hlen.
  eexists. split; [apply holtWintersForecast_returns; assumption|].
  cbn [mape]. split; [reflexivity|].
  intros Hpos. unfold Spec.mape_with. now rewrite pair_errors_positive.
Qed.

(** The hypothesis of C5 holds for the series 10, 20, 30. *)
Lemma C5_witness :
  exists result,
    holtWintersForecast rising 10 default_params = Return result
    /\ mape result
       = Spec.mape_with Spec.ape_of_quotient (alpha default_params) (beta default_params)
                        (map value rising)
    /\ (Forall (fun v => (0 <? v) = true) (tl (map value rising)) ->
        mape result
        = Spec.mape_with Spec.ape_as_written (alpha default_params) (beta default_params)
                         (map value rising)).
Proof.
  apply (C5_mape_is_mean_of_absolute_quotients rising 10 default_params).
  simpl. lia.
Defined.

(** C6: for a series of at least 2 points and a horizon periods, the
    forecast and both confidence bands have length periods (10 for the
    default horizon), and elementwise
    lower[i] = forecast[i] * (1 - mape/100) and
    upper[i] = forecast[i] * (1 + mape/100). *)
Theorem C6_confidence_bands_scale_forecast :
  forall (data : list TimeSeriesPoint) (periods : Z) (params : HoltWintersParams),
    (2 <= length data)%nat ->
    exists result,
      holtWintersForecast data periods params = Return result
      /\ length (forecast result) = Z.to_nat periods
      /\ ((0 <= periods)%Z -> Z.of_nat (length (forecast result)) = periods)
      /\ length (lower (confidenceBands result)) = length (forecast result)
      /\ length (upper (confidenceBands result)) = length (forecast result)
      /\ (periods = default_periods ->
          length (forecast result) = 10%nat
          /\ length (lower (confidenceBands result)) = 10%nat
          /\ length (upper (confidenceBands result)) = 10%nat)
      /\ forall i f, nth_error (forecast result) i = Some f ->
           nth_error (lower (confidenceBands result)) i = Some (f * (1 - mape result / 100))
           /\ nth_error (upper (confidenceBands result)) i = Some (f * (1 + mape result / 100)).
Proof.
  intros data periods params Hlen.
  eexists. split; [apply holtWintersForecast_returns; assumption|].
  cbn [forecast confidenceBands lower upper mape].
  rewrite !length_map, forecast_loop_length.
  repeat split; try reflexivity.
  - lia.
  - subst periods. reflexivity.
  - subst periods. reflexivity.
  - subst periods. reflexivity.
  - rewrite nth_error_map, H. reflexivity.
  - rewrite nth_error_map, H. reflexivity.
Qed.

(** The hypothesis of C6 holds for the series 10, 20, 30 and the default
    horizon. *)
Lemma C6_witness :
  exists result,
    holtWintersForecast rising default_periods default_params = Return result
    /\ length (forecast result) = Z.to_nat default_periods
    /\ ((0 <= default_periods)%Z -> Z.of_nat (length (forecast result)) = default_periods)
    /\ length (lower (confidenceBands result)) = length (forecast result)
    /\ length (upper (confidenceBands result)) = length (forecast result)
    /\ (default_periods = default_periods ->
        length (forecast result) = 10%nat
        /\ length (lower (confidenceBands result)) = 10%nat
        /\ length (upper (confidenceBands result)) = 10%nat)
    /\ forall i f, nth_error (forecast result) i = Some f ->
         nth_error (lower (confidenceBands result)) i = Some (f * (1 - mape result / 100))
         /\ nth_error (upper (confidenceBands result)) i = Some (f * (1 + mape result / 100)).
Proof.
  apply (C6_confidence_bands_scale_forecast rising default_periods default_params).
  simpl. lia.
Defined.

End ForecasterTheorems.

Section ProjectionTheorems.

Import HoltWinters Samples.
Open Scope float_scope.

Lemma index_last (arr : list float) :
  arr <> [] -> JS.index arr (Z.of_nat (length arr) - 1) = Num (last arr nan).
Proof.
  intros Hne. destruct (exists_last Hne) as (front & x & ->).
  unfold JS.index. rewrite length_app, last_last. simpl length.
  destruct (Z.ltb_spec (Z.of_nat (length front + 1) - 1) 0) as [Hneg|_]; [lia|].
  replace (Z.to_nat (Z.of_nat (length front + 1) - 1)) with (length front) by lia.
  rewrite nth_error_app2 by lia. now rewrite Nat.sub_diag.
Qed.

Ltac throw_case :=
  split; [split; [intros [? H]; discriminate H | lia] |];
  split; [split; [intros _; lia | intros _; reflexivity] |];
  intros ? H; discriminate H.

(** C1 (as stated, refuted): generateProjections does not isolate
    failures per series.  With an empty income series and population
    and age series of 2 points each, the call throws and yields no
    projection for any series. *)
Lemma C1_counterexample :
  (length ([] : list TimeSeriesPoint) < 2)%nat
  /\ (2 <= length rising)%nat
  /\ generateProjections [] rising rising
     = Throw "Need at least 2 data points for forecasting"
  /\ ~ (exists out, generateProjections [] rising rising = Return out).
Proof.
  split; [simpl; lia|]. split; [simpl; lia|]. split; [reflexivity|].
  intros [out H]. discriminate H.
Qed.

(** C1 (amended): generateProjections returns a result exactly when all
    three series have at least 2 points, and then each field is the
    forecaster's result on its own series with horizon 10; when any
    series has fewer than 2 points the forecaster's error leaves
    generateProjections and no projection is returned. *)
Theorem C1_generateProjections_all_or_nothing :
  forall (incomeData populationData ageData : list TimeSeriesPoint),
    ((exists out, generateProjections incomeData populationData ageData = Return out)
     <-> (2 <= length incomeData /\ 2 <= length populationData /\ 2 <= length ageData)%nat)
    /\ (generateProjections incomeData populationData ageData
        = Throw "Need at least 2 data points for forecasting"
        <-> (length incomeData < 2 \/ length populationData < 2 \/ length ageData < 2)%nat)
    /\ (forall out,
          generateProjections incomeData populationData ageData = Return out ->
          holtWintersForecast incomeData 10 default_params = Return (income out)
          /\ holtWintersForecast populationData 10 default_params = Return (population out)
          /\ holtWintersForecast ageData 10 default_params = Return (age out)).
Proof.
  intros i p a. unfold generateProjections.
  destruct (Nat.lt_ge_cases (length i) 2) as [Hi|Hi];
    [rewrite (holtWintersForecast_throws i _ _ Hi)
    |rewrite (holtWintersForecast_returns i _ _ Hi)]; cbn [bind].
  { throw_case. }
  destruct (Nat.lt_ge_cases (length p) 2) as [Hp|Hp];
    [rewrite (holtWintersForecast_throws p _ _ Hp)
    |rewrite (holtWintersForecast_returns p _ _ Hp)]; cbn [bind].
  { throw_case. }
  destruct (Nat.lt_ge_cases (length a) 2) as [Ha|Ha];
    [rewrite (holtWintersForecast_throws a _ _ Ha)
    |rewrite (holtWintersForecast_returns a _ _ Ha)]; cbn [bind].
  { throw_case. }
  split; [split; [intros _; lia | intros _; eexists; reflexivity]|].
  split; [split; [discriminate | lia]|].
  intros out H. injection H as <-. repeat split.
Qed.

(** C10: for a ProjectionResult with non-empty forecast and bands,
    formatProjectionForAPI puts the last forecast value in population_idx,
    hh_income_idx and age_median alike, the last lower and upper band
    values in p25.hh_income_idx and p75.hh_income_idx, and the record is
    the same for every baseYear. *)
Theorem C10_format_repeats_final_forecast :
  forall (result : ProjectionResult) (baseYear : Z),
    forecast result <> [] ->
    lower (confidenceBands result) <> [] ->
    upper (confidenceBands result) <> [] ->
    population_idx (formatProjectionForAPI result baseYear) = Num (last (forecast result) nan)
    /\ hh_income_idx (formatProjectionForAPI result baseYear) = Num (last (forecast result) nan)
    /\ age_median (formatProjectionForAPI result baseYear) = Num (last (forecast result) nan)
    /\ hh_income_idx_of (p25 (formatProjectionForAPI result baseYear))
       = Num (last (lower (confidenceBands result)) nan)
    /\ hh_income_idx_of (p75 (formatProjectionForAPI result baseYear))
       = Num (last (upper (confidenceBands result)) nan)
    /\ forall otherYear,
         formatProjectionForAPI result otherYear = formatProjectionForAPI result baseYear.
Proof.
  intros result baseYear Hf Hl Hu. unfold formatProjectionForAPI.
  cbn [population_idx hh_income_idx age_median p25 p75 hh_income_idx_of].
  rewrite !index_last by assumption. repeat split.
Qed.

(** The hypotheses of C10 hold for a result with three forecast points. *)
Lemma C10_witness :
  population_idx (formatProjectionForAPI ramp 2024) = Num (last (forecast ramp) nan)
  /\ hh_income_idx (formatProjectionForAPI ramp 2024) = Num (last (forecast ramp) nan)
  /\ age_median (formatProjectionForAPI ramp 2024) = Num (last (forecast ramp) nan)
  /\ hh_income_idx_of (p25 (formatProjectionForAPI ramp 2024))
     = Num (last (lower (confidenceBands ramp)) nan)
  /\ hh_income_idx_of (p75 (formatProjectionForAPI ramp 2024))
     = Num (last (upper (confidenceBands ramp)) nan)
  /\ forall otherYear,
       formatProjectionForAPI ramp otherYear = formatProjectionForAPI ramp 2024.
Proof.
  apply (C10_format_repeats_final_forecast ramp 2024); simpl; discriminate.
Defined.

End ProjectionTheorems.

Section AggregatorTheorems.

Import HoltWinters SnapshotBuilder Samples.
Open Scope float_scope.

Lemma projections_body_throws (data : ProjectionData) :
  (length (data_income data) < 2 \/ length (data_age data) < 2)%nat ->
  projections_body data = Throw "Need at least 2 data points for forecasting".
Proof.
  intros H. unfold projections_body.
  destruct (Nat.lt_ge_cases (length (data_income data)) 2) as [Hi|Hi].
  - rewrite holtWintersForecast_throws by (now rewrite length_map). reflexivity.
  - rewrite holtWintersForecast_returns by (now rewrite length_map). cbn [bind].
    rewrite holtWintersForecast_throws by (rewrite length_map; lia). reflexivity.
Qed.

Lemma calculateProjections_returns (geoId : string) (data : ProjectionData) :
  exists r, fst (calculateProjections geoId data) = Return r.
Proof.
  unfold calculateProjections.
  destruct (projections_body data); eexists; reflexivity.
Qed.

(** C2: when computing the projections of a geography fails (the income
    or the age series has fewer than 2 points, so the forecaster raises),
    calculateProjections catches the error, writes a warning and returns
    the fallback record with population_idx = 1.0, hh_income_idx = 1.0,
    age_median = null, p25.hh_income_idx = 1.0 and p75.hh_income_idx = 1.0;
    the error does not leave the function. *)
Theorem C2_failed_projection_returns_neutral_fallback :
  forall (geoId : string) (data : ProjectionData),
    (length (data_income data) < 2 \/ length (data_age data) < 2)%nat ->
    (exists message, projections_body data = Throw message)
    /\ fst (calculateProjections geoId data)
       = Return {| population_idx := 1.0;
                   hh_income_idx := 1.0;
                   age_median := Null;
                   p25 := {| quartile_hh_income_idx := 1.0 |};
                   p75 := {| quartile_hh_income_idx := 1.0 |} |}
    /\ length (snd (calculateProjections geoId data)) = 1%nat
    /\ (forall message,
          projections_body data = Throw message ->
          fst (calculateProjections geoId data) = Return fallback)
    /\ forall anyData, exists r, fst (calculateProjections geoId anyData) = Return r.
Proof.
  intros geoId data H.
  pose proof (projections_body_throws data H) as E.
  unfold calculateProjections. rewrite E. cbn [fst snd length].
  split; [eexists; reflexivity|].
  split; [reflexivity|]. split; [reflexivity|]. split; [reflexivity|].
  intros anyData. apply calculateProjections_returns.
Qed.

(** The hypothesis of C2 holds for a geography with one age observation. *)
Lemma C2_witness :
  (exists message, projections_body no_age_history = Throw message)
  /\ fst (calculateProjections "06075" no_age_history)
     = Return {| population_idx := 1.0;
                 hh_income_idx := 1.0;
                 age_median := Null;
                 p25 := {| quartile_hh_income_idx := 1.0 |};
                 p75 := {| quartile_hh_income_idx := 1.0 |} |}
  /\ length (snd (calculateProjections "06075" no_age_history)) = 1%nat
  /\ (forall message,
        projections_body no_age_history = Throw message ->
        fst (calculateProjections "06075" no_age_history) = Return fallback)
  /\ forall anyData, exists r, fst (calculateProjections "06075" anyData) = Return r.
Proof.
  apply (C2_failed_projection_returns_neutral_fallback "06075" no_age_history).
  right. simpl. lia.
Defined.

End AggregatorTheorems.

Section CagrTheorems.

Import Cagr Samples.
Open Scope float_scope.

Lemma calculateCAGR_degenerate pow (startValue endValue years : float) :
  (startValue <=? 0) = true \/ (endValue <=? 0) = true \/ (years <=? 0) = true ->
  calculateCAGR pow startValue endValue years = 0.
Proof.
  unfold calculateCAGR. intros [H | [H | H]]; rewrite H;
    rewrite ?orb_true_r; reflexivity.
Qed.

Lemma calculateCAGR_regular pow (startValue endValue years : float) :
  (0 <? startValue) = true -> (0 <? endValue) = true -> (0 <? years) = true ->
  calculateCAGR pow startValue endValue years
  = pow (endValue / startValue) (1 / years) - 1.
Proof.
  intros Hs He Hy. unfold calculateCAGR.
  now rewrite (pos_not_le0 _ Hs), (pos_not_le0 _ He), (pos_not_le0 _ Hy).
Qed.

(** C7: calculateCAGR returns (endValue/startValue)^(1/years) - 1 when
    startValue, endValue and years are all above 0, and exactly 0 when
    startValue <= 0, endValue <= 0 or years <= 0; with a Math.pow that
    gives 1^(1/5) = 1 and 2^1 = 2, calculateCAGR(100, 100, 5) is 0 and
    calculateCAGR(100, 200, 1) is 1. *)
Theorem C7_calculateCAGR_formula_and_zero_policy :
  forall (Math_pow : float -> float -> float),
    Math_pow 1 (1 / 5) = 1 ->
    Math_pow 2 1 = 2 ->
    forall startValue endValue years : float,
      ((0 <? startValue) = true -> (0 <? endValue) = true -> (0 <? years) = true ->
       calculateCAGR Math_pow startValue endValue years
       = Math_pow (endValue / startValue) (1 / years) - 1)
      /\ ((startValue <=? 0) = true \/ (endValue <=? 0) = true \/ (years <=? 0) = true ->
          calculateCAGR Math_pow startValue endValue years = 0)
      /\ calculateCAGR Math_pow 100 100 5 = 0
      /\ calculateCAGR Math_pow 100 200 1 = 1.
Proof.
  intros Math_pow Hbase Hexp startValue endValue years.
  split; [apply calculateCAGR_regular|].
  split; [apply calculateCAGR_degenerate|].
  split.
  - rewrite calculateCAGR_regular by reflexivity.
    replace (100 / 100) with 1 by reflexivity.
    rewrite Hbase. reflexivity.
  - rewrite calculateCAGR_regular by reflexivity.
    replace (200 / 100) with 2 by reflexivity.
    replace (1 / 1) with 1 by reflexivity.
    rewrite Hexp. reflexivity.
Qed.

(** The hypotheses of C7 hold for a function that is exact where the
    exponent or the base is 1. *)
Lemma C7_witness :
  ((0 <? 100) = true -> (0 <? 200) = true -> (0 <? 1) = true ->
   calculateCAGR pow_plain_cases 100 200 1 = pow_plain_cases (200 / 100) (1 / 1) - 1)
  /\ ((100 <=? 0) = true \/ (200 <=? 0) = true \/ (1 <=? 0) = true ->
      calculateCAGR pow_plain_cases 100 200 1 = 0)
  /\ calculateCAGR pow_plain_cases 100 100 5 = 0
  /\ calculateCAGR pow_plain_cases 100 200 1 = 1.
Proof.
  apply (C7_calculateCAGR_formula_and_zero_policy pow_plain_cases); reflexivity.
Defined.

End CagrTheorems.

Section MigrationTheorems.

Import MigrationSignal Samples.
Open Scope float_scope.

Lemma window_test_agrees (currentYear : Z) (d : MigrationDataPoint) :
  (year d >=? currentYear - 2)%Z && (year d <=? currentYear)%Z
  = if Spec.in_window_dec currentYear d then true else false.
Proof.
  destruct (Spec.in_window_dec currentYear d) as [Hin|Hout]; unfold Spec.in_window in *.
  - apply andb_true_iff. split; [apply Z.geb_le|apply Z.leb_le]; lia.
  - apply andb_false_iff.
    destruct (Z_le_dec (currentYear - 2) (year d)) as [Hlo|Hlo].
    + right. apply Z.leb_gt. lia.
    + left. rewrite Z.geb_leb. apply Z.leb_gt. lia.
Qed.

Lemma window_filter_agrees (data : list MigrationDataPoint) (currentYear : Z) :
  filter (fun d => (year d >=? currentYear - 2)%Z && (year d <=? currentYear)%Z) data
  = Spec.window_points data currentYear.
Proof.
  unfold Spec.window_points. apply filter_ext. intros d. apply window_test_agrees.
Qed.

Lemma window_points_exact (data : list MigrationDataPoint) (y : Z) (d : MigrationDataPoint) :
  In d (Spec.window_points data y) <-> In d data /\ (y - 2 <= year d <= y)%Z.
Proof.
  unfold Spec.window_points. rewrite filter_In.
  destruct (Spec.in_window_dec y d) as [Hin|Hout]; unfold Spec.in_window in *;
    intuition (congruence || lia).
Qed.

Lemma calculateRollingAverage_spec (data : list MigrationDataPoint) (y : Z) :
  calculateRollingAverage data y = Spec.rolling_average data y.
Proof.
  unfold calculateRollingAverage, Spec.rolling_average.
  rewrite window_filter_agrees.
  destruct (Spec.window_points data y) as [|d pts]; reflexivity.
Qed.

(** C8: for calendar years, that is integers in the range on which
    binary64 arithmetic is exact, calculateRollingAverage(data, year) is
    the arithmetic mean of netMigration1834 over exactly the points whose
    year lies in [year-2, year], and 0 when no point lies there; for the
    empty data set it is 0 whatever the year, and for {2022,10},
    {2023,20}, {2024,30} with year 2024 it is 20. *)
Theorem C8_rolling_average_is_window_mean :
  forall (data : list MigrationDataPoint) (currentYear : Z),
    Spec.safe_year currentYear ->
    Spec.safe_year (currentYear - 2) ->
    Spec.safe_years data ->
    (forall d, In d (Spec.window_points data currentYear)
               <-> In d data /\ (currentYear - 2 <= year d <= currentYear)%Z)
    /\ calculateRollingAverage data currentYear
       = match Spec.window_points data currentYear with
         | [] => 0
         | pts => Spec.mean (map netMigration1834 pts)
         end
    /\ ((forall d, In d data -> ~ (currentYear - 2 <= year d <= currentYear)%Z) ->
        calculateRollingAverage data currentYear = 0)
    /\ (forall anyYear, calculateRollingAverage [] anyYear = 0)
    /\ calculateRollingAverage three_years 2024 = 20.
Proof.
  intros data y _ _ _.
  split; [intros d; apply window_points_exact|].
  split; [apply calculateRollingAverage_spec|].
  split; [|split; reflexivity].
  intros Hnone. rewrite calculateRollingAverage_spec. unfold Spec.rolling_average.
  destruct (Spec.window_points data y) as [|d pts] eqn:E; [reflexivity|].
  exfalso. assert (Hd : In d (Spec.window_points data y)) by (rewrite E; now left).
  apply window_points_exact in Hd. destruct Hd as [Hin Hw]. exact (Hnone d Hin Hw).
Qed.

(** The hypotheses of C8 hold for the years 2022 to 2024. *)
Lemma C8_witness :
  (forall d, In d (Spec.window_points three_years 2024)
             <-> In d three_years /\ (2024 - 2 <= year d <= 2024)%Z)
  /\ calculateRollingAverage three_years 2024
     = match Spec.window_points three_years 2024 with
       | [] => 0
       | pts => Spec.mean (map netMigration1834 pts)
       end
  /\ ((forall d, In d three_years -> ~ (2024 - 2 <= year d <= 2024)%Z) ->
      calculateRollingAverage three_years 2024 = 0)
  /\ (forall anyYear, calculateRollingAverage [] anyYear = 0)
  /\ calculateRollingAverage three_years 2024 = 20.
Proof.
  apply (C8_rolling_average_is_window_mean three_years 2024).
  - unfold Spec.safe_year. lia.
  - unfold Spec.safe_year. lia.
  - repeat constructor; simpl; lia.
Defined.

(** C9: analyzeMigrationSignal classifies the trend by comparing the
    rolling average ending at year with the rolling average ending at
    year-3: increasing when the later one is above the earlier one plus
    10, otherwise decreasing when it is below the earlier one minus 10,
    otherwise stable.  The earlier window is not the one ending at year:
    for {2021,0}, {2024,100} and year 2024 the trend is increasing, while
    comparing the window ending at 2024 with itself would give stable. *)
Theorem C9_trend_compares_year_with_year_minus_3 :
  forall (data : list MigrationDataPoint) (currentYear : Z),
    let later := calculateRollingAverage data currentYear in
    let earlier := calculateRollingAverage data (currentYear - 3) in
    trend (analyzeMigrationSignal data currentYear) = Spec.classify_trend later earlier
    /\ ((earlier + 10 <? later) = true ->
        trend (analyzeMigrationSignal data currentYear) = increasing)
    /\ ((earlier + 10 <? later) = false -> (later <? earlier - 10) = true ->
        trend (analyzeMigrationSignal data currentYear) = decreasing)
    /\ ((earlier + 10 <? later) = false -> (later <? earlier - 10) = false ->
        trend (analyzeMigrationSignal data currentYear) = stable)
    /\ trend (analyzeMigrationSignal jump 2024) = increasing
    /\ Spec.classify_trend (calculateRollingAverage jump 2024)
                           (calculateRollingAverage jump 2024) = stable.
Proof.
  intros data y later earlier.
  unfold analyzeMigrationSignal. cbn [trend]. fold later earlier.
  unfold Spec.classify_trend.
  split; [reflexivity|].
  split; [intros ->; reflexivity|].
  split; [intros -> ->; reflexivity|].
  split; [intros -> ->; reflexivity|].
  split; reflexivity.
Qed.

End MigrationTheorems.

(* ------------------------------------------------------------------ *)
(** ** Further properties of the code *)

Section NanAndOrderFacts.

Open Scope float_scope.

Lemma is_nan_Prim2SF x : is_nan x = true -> Prim2SF x = S754_nan.
Proof.
  unfold is_nan. rewrite eqb_spec. unfold SFeqb.
  destruct (Prim2SF x) as [[|]|[|]| |[|] m e]; simpl; try discriminate; try reflexivity;
    rewrite Z.compare_refl, Pos.compare_cont_refl; simpl; discriminate.
Qed.

Lemma Prim2SF_is_nan x : Prim2SF x = S754_nan -> x = nan.
Proof. intros H. apply Prim2SF_inj. rewrite H. reflexivity. Qed.

Lemma is_nan_eq x : is_nan x = true -> x = nan.
Proof. intros H. apply Prim2SF_is_nan, is_nan_Prim2SF, H. Qed.

Lemma nan_leb y : (nan <=? y) = false.
Proof. rewrite leb_spec. reflexivity. Qed.

Lemma nan_ltb_l y : (nan <? y) = false.
Proof. rewrite ltb_spec. reflexivity. Qed.

Lemma nan_ltb_r y : (y <? nan) = false.
Proof.
  rewrite ltb_spec. change (Prim2SF nan) with S754_nan.
  unfold SFltb. destruct (Prim2SF y) as [[|]|[|]| |[|] m e]; reflexivity.
Qed.

Lemma div_nan_r x : x / nan = nan.
Proof.
  apply Prim2SF_inj. rewrite div_spec. change (Prim2SF nan) with S754_nan.
  unfold SF64div, SFdiv. destruct (Prim2SF x); reflexivity.
Qed.

Lemma div_nan_l x : nan / x = nan.
Proof. apply Prim2SF_inj. rewrite div_spec. reflexivity. Qed.

Lemma mul_nan_r x : x * nan = nan.
Proof.
  apply Prim2SF_inj. rewrite mul_spec. change (Prim2SF nan) with S754_nan.
  unfold SF64mul, SFmul. destruct (Prim2SF x); reflexivity.
Qed.

Lemma add_nan_l x : nan + x = nan.
Proof. apply Prim2SF_inj. rewrite add_spec. reflexivity. Qed.

(** A number below zero is [-Infinity] or a negative finite number. *)
Lemma negative_cases y :
  (y <? 0) = true ->
  Prim2SF y = S754_infinity true \/ exists m e, Prim2SF y = S754_finite true m e.
Proof.
  rewrite ltb_spec, Prim2SF_zero. unfold SFltb.
  destruct (Prim2SF y) as [[|]| [|] | | [|] m e]; simpl; try discriminate; eauto.
Qed.

(** What is above a positive number is positive. *)
Lemma above_positive a c : (0 <? a) = true -> (a <? c) = true -> (0 <? c) = true.
Proof.
  intros Ha Hac. rewrite ltb_spec in Hac. rewrite ltb_spec, Prim2SF_zero.
  unfold SFltb in *.
  destruct (positive_cases a Ha) as [Ea | (m & e & Ea)]; rewrite Ea in Hac;
    destruct (Prim2SF c) as [[|]| [|] | | [|] m' e']; simpl in *;
    try discriminate; reflexivity.
Qed.

(** What is below a negative number is negative. *)
Lemma below_negative a c : (a <? 0) = true -> (c <? a) = true -> (c <? 0) = true.
Proof.
  intros Ha Hca. rewrite ltb_spec in Hca. rewrite ltb_spec, Prim2SF_zero.
  unfold SFltb in *.
  destruct (negative_cases a Ha) as [Ea | (m & e & Ea)]; rewrite Ea in Hca;
    destruct (Prim2SF c) as [[|]| [|] | | [|] m' e']; simpl in *;
    try discriminate; reflexivity.
Qed.

Lemma truthy_not_nan x : truthy x = true -> is_nan x = false.
Proof.
  unfold truthy. intros H. apply negb_true_iff, orb_false_iff in H. apply H.
Qed.

Lemma or_else_truthy x d : truthy d = true -> truthy (or_else x d) = true.
Proof. intros Hd. unfold or_else. destruct (truthy x) eqn:E; assumption. Qed.

End NanAndOrderFacts.

Section ForecasterProperties.

Import HoltWinters Samples.
Open Scope float_scope.

Lemma index_empty : JS.index [] (Z.of_nat (length (@nil float)) - 1) = Undefined.
Proof. reflexivity. Qed.

Lemma last_map_seq {A : Type} (f : nat -> A) (n : nat) (d : A) :
  last (map f (seq 1 (S n))) d = f (S n).
Proof.
  rewrite seq_S, map_app. simpl map. now rewrite last_last.
Qed.

Lemma forecast_loop_nonpositive periods level trend :
  (periods <= 0)%Z -> forecast_loop periods level trend = [].
Proof.
  intros H. rewrite forecast_loop_map.
  replace (Z.to_nat periods) with 0%nat by lia. reflexivity.
Qed.

Lemma firstn_of_seq (n start len : nat) :
  (n <= len)%nat -> firstn n (seq start len) = seq start n.
Proof.
  revert start len. induction n as [|n IH]; intros start len H; [reflexivity|].
  destruct len as [|len]; [lia|]. simpl. f_equal. apply IH. lia.
Qed.

Lemma forecast_loop_prefix p q level trend :
  (p <= q)%Z ->
  forecast_loop p level trend = firstn (Z.to_nat p) (forecast_loop q level trend).
Proof.
  intros H. rewrite !forecast_loop_map, firstn_map, firstn_of_seq by lia.
  reflexivity.
Qed.

(** X1: with a horizon of 0 or less the forecaster still succeeds on a
    series of at least 2 points, but the forecast and both bands are
    empty, and formatProjectionForAPI turns such a result into a record
    whose five fields are all undefined. *)
Theorem X1_nonpositive_horizon_gives_empty_forecast :
  forall (data : list TimeSeriesPoint) (periods : Z) (params : HoltWintersParams)
         (baseYear : Z),
    (2 <= length data)%nat ->
    (periods <= 0)%Z ->
    exists result,
      holtWintersForecast data periods params = Return result
      /\ forecast result = []
      /\ lower (confidenceBands result) = []
      /\ upper (confidenceBands result) = []
      /\ formatProjectionForAPI result baseYear
         = {| population_idx := Undefined;
              hh_income_idx := Undefined;
              age_median := Undefined;
              p25 := {| hh_income_idx_of := Undefined |};
              p75 := {| hh_income_idx_of := Undefined |} |}.
Proof.
  intros data periods params baseYear Hlen Hp.
  eexists. split; [apply holtWintersForecast_returns; assumption|].
  cbn [forecast confidenceBands lower upper].
  rewrite forecast_loop_nonpositive by assumption.
  repeat split.
Qed.

(** The hypotheses of X1 hold for the series 10, 20, 30 and horizon 0. *)
Lemma X1_witness :
  exists result,
    holtWintersForecast rising 0 default_params = Return result
    /\ forecast result = []
    /\ lower (confidenceBands result) = []
    /\ upper (confidenceBands result) = []
    /\ formatProjectionForAPI result 2024
       = {| population_idx := Undefined;
            hh_income_idx := Undefined;
            age_median := Undefined;
            p25 := {| hh_income_idx_of := Undefined |};
            p75 := {| hh_income_idx_of := Undefined |} |}.
Proof.
  apply (X1_nonpositive_horizon_gives_empty_forecast rising 0 default_params 2024).
  - simpl. lia.
  - lia.
Defined.

(** X2: lengthening the horizon only appends: for p <= q the forecast
    and the bands for horizon p are the first p entries of those for
    horizon q, and the mape is the same. *)
Theorem X2_shorter_horizon_is_prefix :
  forall (data : list TimeSeriesPoint) (p q : Z) (params : HoltWintersParams),
    (2 <= length data)%nat ->
    (p <= q)%Z ->
    exists rp rq,
      holtWintersForecast data p params = Return rp
      /\ holtWintersForecast data q params = Return rq
      /\ forecast rp = firstn (Z.to_nat p) (forecast rq)
      /\ lower (confidenceBands rp) = firstn (Z.to_nat p) (lower (confidenceBands rq))
      /\ upper (confidenceBands rp) = firstn (Z.to_nat p) (upper (confidenceBands rq))
      /\ mape rp = mape rq.
Proof.
  intros data p q params Hlen Hpq.
  do 2 eexists.
  split; [apply holtWintersForecast_returns; assumption|].
  split; [apply holtWintersForecast_returns; assumption|].
  cbn [forecast confidenceBands lower upper mape].
  rewrite !firstn_map, <- (forecast_loop_prefix p q) by assumption.
  repeat split.
Qed.

(** The hypotheses of X2 hold for the series 10, 20, 30 and horizons 2
    and 10. *)
Lemma X2_witness :
  exists rp rq,
    holtWintersForecast rising 2 default_params = Return rp
    /\ holtWintersForecast rising 10 default_params = Return rq
    /\ forecast rp = firstn (Z.to_nat 2) (forecast rq)
    /\ lower (confidenceBands rp) = firstn (Z.to_nat 2) (lower (confidenceBands rq))
    /\ upper (confidenceBands rp) = firstn (Z.to_nat 2) (upper (confidenceBands rq))
    /\ mape rp = mape rq.
Proof.
  apply (X2_shorter_horizon_is_prefix rising 2 10 default_params).
  - simpl. lia.
  - lia.
Defined.

(** X3: the forecaster never reads the periods: two series with the same
    values in the same order give the same outcome, whatever their
    periods are. *)
Theorem X3_forecast_ignores_periods :
  forall (data data' : list TimeSeriesPoint) (periods : Z) (params : HoltWintersParams),
    map value data = map value data' ->
    holtWintersForecast data periods params = holtWintersForecast data' periods params.
Proof.
  intros data data' periods params Hv.
  assert (Hlen : length data = length data').
  { rewrite <- (length_map value data), Hv. apply length_map. }
  unfold holtWintersForecast. rewrite Hlen, Hv. reflexivity.
Qed.

(** The hypothesis of X3 holds for 10, 20, 30 dated 2020..2022 and
    dated 1, 5, 50. *)
Lemma X3_witness :
  holtWintersForecast rising 10 default_params
  = holtWintersForecast [pt 1 10; pt 5 20; pt 50 30] 10 default_params.
Proof.
  apply (X3_forecast_ignores_periods rising [pt 1 10; pt 5 20; pt 50 30] 10 default_params).
  reflexivity.
Defined.

(** X4: formatProjectionForAPI applied to the forecast of a series of at
    least 2 points with horizon h >= 1 reports the h-th step of the
    extrapolation, finalLevel + h*finalTrend, in its three index fields,
    and that value scaled by (1 - mape/100) and (1 + mape/100) as p25
    and p75. *)
Theorem X4_format_of_forecast_reports_last_step :
  forall (data : list TimeSeriesPoint) (h : Z) (params : HoltWintersParams) (baseYear : Z),
    (2 <= length data)%nat ->
    (1 <= h)%Z ->
    exists result,
      holtWintersForecast data h params = Return result
      /\ let final :=
           fst (Spec.final_level_trend (alpha params) (beta params) (map value data))
           + JS.of_nat (Z.to_nat h)
             * snd (Spec.final_level_trend (alpha params) (beta params) (map value data)) in
         population_idx (formatProjectionForAPI result baseYear) = Num final
         /\ hh_income_idx (formatProjectionForAPI result baseYear) = Num final
         /\ age_median (formatProjectionForAPI result baseYear) = Num final
         /\ hh_income_idx_of (p25 (formatProjectionForAPI result baseYear))
            = Num (final * (1 - mape result / 100))
         /\ hh_income_idx_of (p75 (formatProjectionForAPI result baseYear))
            = Num (final * (1 + mape result / 100)).
Proof.
  intros data h params baseYear Hlen Hh.
  eexists. split; [apply holtWintersForecast_returns; assumption|].
  unfold formatProjectionForAPI.
  cbn [forecast confidenceBands lower upper mape population_idx hh_income_idx
       age_median p25 p75 hh_income_idx_of].
  rewrite forecast_loop_map.
  destruct (Z.to_nat h) as [|n] eqn:En; [lia|].
  assert (Hne : forall (f : nat -> float), map f (seq 1 (S n)) <> []) by (intros f; discriminate).
  rewrite !map_map.
  rewrite !index_last by apply Hne.
  rewrite !last_map_seq. repeat split.
Qed.

(** The hypotheses of X4 hold for the series 10, 20, 30 and horizon 10. *)
Lemma X4_witness :
  exists result,
    holtWintersForecast rising 10 default_params = Return result
    /\ let final :=
         fst (Spec.final_level_trend (alpha default_params) (beta default_params)
                                     (map value rising))
         + JS.of_nat (Z.to_nat 10)
           * snd (Spec.final_level_trend (alpha default_params) (beta default_params)
                                         (map value rising)) in
       population_idx (formatProjectionForAPI result 2024) = Num final
       /\ hh_income_idx (formatProjectionForAPI result 2024) = Num final
       /\ age_median (formatProjectionForAPI result 2024) = Num final
       /\ hh_income_idx_of (p25 (formatProjectionForAPI result 2024))
          = Num (final * (1 - mape result / 100))
       /\ hh_income_idx_of (p75 (formatProjectionForAPI result 2024))
          = Num (final * (1 + mape result / 100)).
Proof.
  apply (X4_format_of_forecast_reports_last_step rising 10 default_params 2024).
  - simpl. lia.
  - lia.
Defined.

(** X5: formatProjectionForAPI does not fail on empty arrays: a field
    is undefined exactly when the array it is read from is empty (the
    three index fields from forecast, p25 from lower, p75 from upper). *)
Theorem X5_format_field_undefined_iff_array_empty :
  forall (result : ProjectionResult) (baseYear : Z),
    (population_idx (formatProjectionForAPI result baseYear) = Undefined
     <-> forecast result = [])
    /\ (hh_income_idx (formatProjectionForAPI result baseYear) = Undefined
        <-> forecast result = [])
    /\ (age_median (formatProjectionForAPI result baseYear) = Undefined
        <-> forecast result = [])
    /\ (hh_income_idx_of (p25 (formatProjectionForAPI result baseYear)) = Undefined
        <-> lower (confidenceBands result) = [])
    /\ (hh_income_idx_of (p75 (formatProjectionForAPI result baseYear)) = Undefined
        <-> upper (confidenceBands result) = []).
Proof.
  intros result baseYear. unfold formatProjectionForAPI.
  cbn [population_idx hh_income_idx age_median p25 p75 hh_income_idx_of].
  assert (H : forall arr : list float,
             JS.index arr (Z.of_nat (length arr) - 1) = Undefined <-> arr = []).
  { intros arr. destruct arr as [|x arr]; [split; reflexivity|].
    rewrite index_last by discriminate. split; discriminate. }
  repeat split; apply H.
Qed.

End ForecasterProperties.

Section ZeroSeries.

Import HoltWinters Samples.
Open Scope float_scope.

Lemma fitted_zeros (n : nat) :
  Spec.fitted (alpha default_params) (beta default_params) 0 0 (repeat 0 n) = repeat 0 n.
Proof.
  induction n as [|n IH]; [reflexivity|].
  cbn [repeat Spec.fitted].
  change (alpha default_params * 0 + (1 - alpha default_params) * (0 + 0)) with 0.
  change (beta default_params * (0 - 0) + (1 - beta default_params) * 0) with 0.
  now rewrite IH.
Qed.

Lemma pair_errors_zeros (n m : nat) :
  (n <= m)%nat ->
  Spec.pair_errors Spec.ape_of_quotient (repeat 0 n) (repeat 0 m) = repeat nan n.
Proof.
  revert m. induction n as [|n IH]; intros [|m] H; try reflexivity; try lia.
  cbn [repeat Spec.pair_errors]. rewrite IH by lia. reflexivity.
Qed.

Lemma fold_add_nans (n : nat) : fold_left PrimFloat.add (repeat nan n) nan = nan.
Proof. induction n as [|n IH]; [reflexivity|]. simpl. exact IH. Qed.

Lemma mean_nans (n : nat) : Spec.mean (repeat nan (S n)) = nan.
Proof.
  unfold Spec.mean. cbn [repeat fold_left].
  change (0 + nan) with nan. rewrite fold_add_nans. apply div_nan_l.
Qed.

Lemma mape_of_zeros (n : nat) :
  Spec.mape_with Spec.ape_of_quotient (alpha default_params) (beta default_params)
                 (repeat 0 (S (S n))) = nan.
Proof.
  unfold Spec.mape_with, Spec.smoothed_series.
  cbn [repeat tl Spec.initial_level Spec.initial_trend hd].
  change (0 - 0) with 0.
  change (0 :: repeat 0 n) with (repeat 0 (S n)).
  rewrite fitted_zeros.
  change (0 :: repeat 0 (S n)) with (repeat 0 (S (S n))).
  rewrite pair_errors_zeros by lia. apply mean_nans.
Qed.

Lemma all_zero_values (data : list TimeSeriesPoint) :
  Forall (fun d => value d = 0) data -> map value data = repeat 0 (length data).
Proof.
  induction 1 as [|d data Hd _ IH]; [reflexivity|]. simpl. now rewrite Hd, IH.
Qed.

(** X6: a series of at least 2 points whose values are all 0 makes the
    percentage errors 0/0: with the default parameters the forecaster
    returns normally, but mape is NaN and every entry of both confidence
    bands is NaN, for every horizon. *)
Theorem X6_all_zero_series_gives_nan_bands :
  forall (data : list TimeSeriesPoint) (periods : Z),
    (2 <= length data)%nat ->
    Forall (fun d => value d = 0) data ->
    exists result,
      holtWintersForecast data periods default_params = Return result
      /\ is_nan (mape result) = true
      /\ Forall (fun x => is_nan x = true) (lower (confidenceBands result))
      /\ Forall (fun x => is_nan x = true) (upper (confidenceBands result)).
Proof.
  intros data periods Hlen Hzero.
  eexists. split; [apply holtWintersForecast_returns; assumption|].
  cbn [mape confidenceBands lower upper].
  rewrite (all_zero_values data Hzero).
  destruct (length data) as [|[|n]]; try lia.
  rewrite mape_of_zeros.
  change (1 - nan / 100) with nan. change (1 + nan / 100) with nan.
  split; [reflexivity|].
  split; apply Forall_map, Forall_forall; intros f _; now rewrite mul_nan_r.
Qed.

(** The hypotheses of X6 hold for three years of zeros. *)
Lemma X6_witness :
  exists result,
    holtWintersForecast [pt 2021 0; pt 2022 0; pt 2023 0] 10 default_params = Return result
    /\ is_nan (mape result) = true
    /\ Forall (fun x => is_nan x = true) (lower (confidenceBands result))
    /\ Forall (fun x => is_nan x = true) (upper (confidenceBands result)).
Proof.
  apply (X6_all_zero_series_gives_nan_bands [pt 2021 0; pt 2022 0; pt 2023 0] 10).
  - simpl. lia.
  - repeat constructor.
Defined.

End ZeroSeries.

Section CagrProperties.

Import Cagr Samples.
Open Scope float_scope.

(** X7: classifyGrowthTrend never contradicts the sign of the rate: a
    rate classified as growing is above 0, a rate classified as declining
    is below 0, and NaN is classified as stable; the thresholds are
    exclusive, so 0.02 and -0.02 themselves are stable. *)
Theorem X7_classification_agrees_with_sign :
  forall cagr : float,
    (classifyGrowthTrend cagr = growing -> (0 <? cagr) = true)
    /\ (classifyGrowthTrend cagr = declining -> (cagr <? 0) = true)
    /\ (is_nan cagr = true -> classifyGrowthTrend cagr = stable)
    /\ classifyGrowthTrend 0.02 = stable
    /\ classifyGrowthTrend (-0.02) = stable.
Proof.
  intros cagr. unfold classifyGrowthTrend.
  split; [|split; [|split; [|split; reflexivity]]].
  - destruct (0.02 <? cagr) eqn:E.
    + intros _. apply (above_positive 0.02 cagr); [reflexivity|exact E].
    + destruct (cagr <? -0.02); discriminate.
  - destruct (0.02 <? cagr) eqn:E; [discriminate|].
    destruct (cagr <? -0.02) eqn:E'; [|discriminate].
    intros _. apply (below_negative (-0.02) cagr); [reflexivity|exact E'].
  - intros Hnan. rewrite (is_nan_eq cagr Hnan). reflexivity.
Qed.

(** X8: whatever Math.pow is, a growth rate computed from a degenerate
    input (startValue <= 0, endValue <= 0 or years <= 0) is classified
    as stable. *)
Theorem X8_degenerate_input_classified_stable :
  forall (Math_pow : float -> float -> float) (startValue endValue years : float),
    (startValue <=? 0) = true \/ (endValue <=? 0) = true \/ (years <=? 0) = true ->
    classifyGrowthTrend (calculateCAGR Math_pow startValue endValue years) = stable.
Proof.
  intros Math_pow s e y H. rewrite calculateCAGR_degenerate by assumption. reflexivity.
Qed.

(** The hypothesis of X8 holds for a start value of 0. *)
Lemma X8_witness :
  classifyGrowthTrend (calculateCAGR pow_plain_cases 0 200 5) = stable.
Proof.
  apply (X8_degenerate_input_classified_stable pow_plain_cases 0 200 5).
  left. reflexivity.
Defined.

(** X9: the zero policy of calculateCAGR does not cover NaN: when an
    argument is NaN and the other two are above 0, the guard lets the
    call through and Math.pow receives a NaN operand. *)
Theorem X9_nan_argument_reaches_pow :
  forall (Math_pow : float -> float -> float) (a b : float),
    (0 <? a) = true ->
    (0 <? b) = true ->
    calculateCAGR Math_pow nan a b = Math_pow nan (1 / b) - 1
    /\ calculateCAGR Math_pow a nan b = Math_pow nan (1 / b) - 1
    /\ calculateCAGR Math_pow a b nan = Math_pow (b / a) nan - 1.
Proof.
  intros Math_pow a b Ha Hb. unfold calculateCAGR.
  rewrite !nan_leb, (pos_not_le0 a Ha), (pos_not_le0 b Hb). cbn [orb].
  rewrite div_nan_r, div_nan_l. repeat split.
Qed.

(** The hypotheses of X9 hold for the values 100 and 5. *)
Lemma X9_witness :
  calculateCAGR pow_plain_cases nan 100 5 = pow_plain_cases nan (1 / 5) - 1
  /\ calculateCAGR pow_plain_cases 100 nan 5 = pow_plain_cases nan (1 / 5) - 1
  /\ calculateCAGR pow_plain_cases 100 5 nan = pow_plain_cases (5 / 100) nan - 1.
Proof.
  apply (X9_nan_argument_reaches_pow pow_plain_cases 100 5); reflexivity.
Defined.

End CagrProperties.

Section MigrationProperties.

Import MigrationSignal Samples.
Open Scope float_scope.

Lemma filter_skip {A : Type} (f : A -> bool) (pre : list A) (d : A) (post : list A) :
  f d = false -> filter f (pre ++ d :: post) = filter f (pre ++ post).
Proof. intros H. rewrite !filter_app. simpl. now rewrite H. Qed.

Lemma find_skip {A : Type} (f : A -> bool) (pre : list A) (d : A) (post : list A) :
  f d = false -> find f (pre ++ d :: post) = find f (pre ++ post).
Proof.
  intros H. induction pre as [|a pre IH]; simpl.
  - now rewrite H.
  - destruct (f a); [reflexivity|exact IH].
Qed.

Lemma find_absent {A : Type} (f : A -> bool) (l : list A) :
  (forall x, In x l -> f x = false) -> find f l = None.
Proof.
  intros H. destruct (find f l) as [x|] eqn:E; [|reflexivity].
  apply find_some in E. destruct E as [Hin Hx]. rewrite (H x Hin) in Hx. discriminate.
Qed.

Lemma rolling_average_skip (pre : list MigrationDataPoint) (d : MigrationDataPoint)
      (post : list MigrationDataPoint) (y : Z) :
  (year d < y - 2 \/ y < year d)%Z ->
  calculateRollingAverage (pre ++ d :: post) y = calculateRollingAverage (pre ++ post) y.
Proof.
  intros H. unfold calculateRollingAverage. rewrite filter_skip; [reflexivity|].
  apply andb_false_iff. destruct H as [H|H].
  - left. rewrite Z.geb_leb. apply Z.leb_gt. lia.
  - right. apply Z.leb_gt. lia.
Qed.

(** X10: the netMigration field of analyzeMigrationSignal is never NaN,
    and it is 0 when no point of the data has the reference year. *)
Theorem X10_netMigration_never_nan :
  forall (data : list MigrationDataPoint) (currentYear : Z),
    is_nan (netMigration (analyzeMigrationSignal data currentYear)) = false
    /\ ((forall d, In d data -> year d <> currentYear) ->
        netMigration (analyzeMigrationSignal data currentYear) = 0).
Proof.
  intros data y. unfold analyzeMigrationSignal. cbn [netMigration]. split.
  - destruct (find _ data) as [d|]; [|reflexivity].
    unfold or_else. destruct (truthy (netMigration1834 d)) eqn:E; [|reflexivity].
    now apply truthy_not_nan.
  - intros Habsent. rewrite find_absent; [reflexivity|].
    intros d Hin. apply Z.eqb_neq. now apply Habsent.
Qed.

(** X11: the confidence label is bounded by the amount of data: with
    fewer than 3 points it is low, medium needs at least 3 points and
    high at least 4. *)
Theorem X11_confidence_bounded_by_data_size :
  forall (data : list MigrationDataPoint) (currentYear : Z),
    ((length data < 3)%nat -> confidence (analyzeMigrationSignal data currentYear) = low)
    /\ (confidence (analyzeMigrationSignal data currentYear) = medium ->
        (3 <= length data)%nat)
    /\ (confidence (analyzeMigrationSignal data currentYear) = high ->
        (4 <= length data)%nat).
Proof.
  intros data y. unfold analyzeMigrationSignal. cbn [confidence].
  pose proof (filter_length_le (fun d => (year d >=? y - 4)%Z) data) as Hle.
  set (dataPoints := length (filter _ data)) in *.
  destruct (Nat.leb_spec 4 dataPoints) as [H4|H4];
    destruct (Nat.leb_spec 3 dataPoints) as [H3|H3]; cbn [andb];
    try destruct (20 <? _); repeat split; intros; try discriminate; try lia; reflexivity.
Qed.

(** X12: for calendar years, that is integers in the range on which
    binary64 arithmetic is exact, only the last six years count: a point
    dated before currentYear - 5 can be removed from the data, wherever
    it stands, without changing any field of the signal. *)
Theorem X12_points_older_than_five_years_are_ignored :
  forall (pre : list MigrationDataPoint) (d : MigrationDataPoint)
         (post : list MigrationDataPoint) (currentYear : Z),
    Spec.safe_year currentYear ->
    Spec.safe_year (currentYear - 5) ->
    Spec.safe_years (pre ++ d :: post) ->
    (year d < currentYear - 5)%Z ->
    analyzeMigrationSignal (pre ++ d :: post) currentYear
    = analyzeMigrationSignal (pre ++ post) currentYear.
Proof.
  intros pre d post y _ _ _ Hold. unfold analyzeMigrationSignal.
  rewrite (rolling_average_skip pre d post y) by lia.
  rewrite (rolling_average_skip pre d post (y - 3)) by lia.
  rewrite (find_skip _ pre d post) by (apply Z.eqb_neq; lia).
  rewrite (filter_skip (fun d0 => (year d0 >=? y - 4)%Z) pre d post)
    by (rewrite Z.geb_leb; apply Z.leb_gt; lia).
  reflexivity.
Qed.

(** The hypotheses of X12 hold for a point of 2010 and the year 2024. *)
Lemma X12_witness :
  analyzeMigrationSignal ([mk 2022 10] ++ mk 2010 999 :: [mk 2023 20; mk 2024 30]) 2024
  = analyzeMigrationSignal ([mk 2022 10] ++ [mk 2023 20; mk 2024 30]) 2024.
Proof.
  apply (X12_points_older_than_five_years_are_ignored
           [mk 2022 10] (mk 2010 999) [mk 2023 20; mk 2024 30] 2024).
  - unfold Spec.safe_year. lia.
  - unfold Spec.safe_year. lia.
  - repeat constructor; simpl; lia.
  - simpl. lia.
Defined.

(** X13: a point dated after the reference year never enters the
    figures: removing it leaves netMigration, rollingAverage and trend
    as they are.  It is still counted for the confidence label: two
    points up to 2023 give low, and a third point dated 2030 raises the
    label to medium. *)
Theorem X13_future_points_only_affect_confidence :
  forall (pre : list MigrationDataPoint) (d : MigrationDataPoint)
         (post : list MigrationDataPoint) (currentYear : Z),
    (currentYear < year d)%Z ->
    netMigration (analyzeMigrationSignal (pre ++ d :: post) currentYear)
    = netMigration (analyzeMigrationSignal (pre ++ post) currentYear)
    /\ rollingAverage (analyzeMigrationSignal (pre ++ d :: post) currentYear)
       = rollingAverage (analyzeMigrationSignal (pre ++ post) currentYear)
    /\ trend (analyzeMigrationSignal (pre ++ d :: post) currentYear)
       = trend (analyzeMigrationSignal (pre ++ post) currentYear)
    /\ confidence (analyzeMigrationSignal [mk 2022 10; mk 2023 20] 2023) = low
    /\ confidence (analyzeMigrationSignal ([mk 2022 10; mk 2023 20] ++ [mk 2030 5]) 2023)
       = medium.
Proof.
  intros pre d post y Hfuture. unfold analyzeMigrationSignal at 1 2 3 4 5 6.
  cbn [netMigration rollingAverage trend].
  rewrite (rolling_average_skip pre d post y) by lia.
  rewrite (rolling_average_skip pre d post (y - 3)) by lia.
  rewrite (find_skip _ pre d post) by (apply Z.eqb_neq; lia).
  repeat split.
Qed.

(** The hypothesis of X13 holds for a point of 2030 and the year 2024. *)
Lemma X13_witness :
  netMigration (analyzeMigrationSignal (three_years ++ mk 2030 5 :: []) 2024)
  = netMigration (analyzeMigrationSignal (three_years ++ []) 2024)
  /\ rollingAverage (analyzeMigrationSignal (three_years ++ mk 2030 5 :: []) 2024)
     = rollingAverage (analyzeMigrationSignal (three_years ++ []) 2024)
  /\ trend (analyzeMigrationSignal (three_years ++ mk 2030 5 :: []) 2024)
     = trend (analyzeMigrationSignal (three_years ++ []) 2024)
  /\ confidence (analyzeMigrationSignal [mk 2022 10; mk 2023 20] 2023) = low
  /\ confidence (analyzeMigrationSignal ([mk 2022 10; mk 2023 20] ++ [mk 2030 5]) 2023)
     = medium.
Proof.
  apply (X13_future_points_only_affect_confidence three_years (mk 2030 5) [] 2024).
  simpl. lia.
Defined.

(** X14: with no data at all, for every reference year, the signal is
    netMigration 0, rollingAverage 0, trend stable, confidence low, and
    its description is the stable sentence marked as limited data. *)
Theorem X14_empty_data_gives_neutral_signal :
  forall currentYear : Z,
    analyzeMigrationSignal [] currentYear
    = {| netMigration := 0; rollingAverage := 0; trend := stable; confidence := low |}
    /\ generateMigrationDescription (analyzeMigrationSignal [] currentYear)
       = "Stable young adult population (limited data)"%string.
Proof. intros y. split; reflexivity. Qed.

Ltac split_description signal :=
  unfold generateMigrationDescription;
  destruct (50 <? rollingAverage signal) eqn:E50;
  [|destruct (10 <? rollingAverage signal) eqn:E10;
    [|destruct (rollingAverage signal <? -50) eqn:En50;
      [|destruct (rollingAverage signal <? -10) eqn:En10]]];
  destruct (trend signal); destruct (confidence signal).

(** X15: generateMigrationDescription ends with (limited data) exactly
    when the confidence of the signal is low. *)
Theorem X15_limited_data_marks_low_confidence :
  forall signal : MigrationSignal,
    Text.ends_with (generateMigrationDescription signal) " (limited data)" = true
    <-> confidence signal = low.
Proof.
  intros signal. split_description signal;
    vm_compute; split; intros H; try reflexivity; discriminate H.
Qed.

(** X16: the direction named in the description agrees with the sign of
    the rolling average: a description that mentions an influx is only
    produced for an average above 0, one that mentions an outflow only
    for an average below 0, and a NaN average is described as stable. *)
Theorem X16_description_direction_agrees_with_sign :
  forall signal : MigrationSignal,
    (Text.mentions (generateMigrationDescription signal) "influx" = true ->
     (0 <? rollingAverage signal) = true)
    /\ (Text.mentions (generateMigrationDescription signal) "outflow" = true ->
        (rollingAverage signal <? 0) = true)
    /\ (is_nan (rollingAverage signal) = true ->
        Text.mentions (generateMigrationDescription signal) "Stable" = true).
Proof.
  intros signal. split; [|split].
  - split_description signal; intros H; try (vm_compute in H; discriminate H).
    all: try (apply (above_positive 50 _ eq_refl E50)).
    all: apply (above_positive 10 _ eq_refl E10).
  - split_description signal; intros H; try (vm_compute in H; discriminate H).
    all: try (apply (below_negative (-50) _ eq_refl En50)).
    all: apply (below_negative (-10) _ eq_refl En10).
  - intros Hnan. unfold generateMigrationDescription.
    rewrite (is_nan_eq _ Hnan).
    change (50 <? nan) with false. change (10 <? nan) with false.
    change (nan <? -50) with false. change (nan <? -10) with false.
    destruct (trend signal); destruct (confidence signal); reflexivity.
Qed.

End MigrationProperties.

Section AggregatorProperties.

Import HoltWinters SnapshotBuilder Samples.
Open Scope float_scope.

Lemma values_of_points (l : list Observation) :
  map value (map to_point l) = map obs_value l.
Proof. rewrite map_map. reflexivity. Qed.

Lemma first_value_of_history (l : list Observation) :
  (2 <= length l)%nat -> first_value l = Num (hd nan (map obs_value l)).
Proof. destruct l as [|d l]; simpl; [lia|reflexivity]. Qed.

(** X17: when the income and the age series both have at least 2
    observations, calculateProjections writes no warning and returns
    population_idx = 1.06 as a constant, age_median = the 10th step of
    the age forecast, and hh_income_idx = the 10th step of the income
    forecast divided by the first income value, replaced by 1.0 when
    that quotient is 0 or NaN. *)
Theorem X17_projections_of_sufficient_history :
  forall (geoId : string) (data : ProjectionData),
    (2 <= length (data_income data))%nat ->
    (2 <= length (data_age data))%nat ->
    exists r,
      calculateProjections geoId data = (Return r, [])
      /\ population_idx r = 1.06
      /\ age_median r
         = Num (fst (Spec.final_level_trend (alpha default_params) (beta default_params)
                                            (map obs_value (data_age data)))
                + JS.of_nat 10
                  * snd (Spec.final_level_trend (alpha default_params) (beta default_params)
                                                (map obs_value (data_age data))))
      /\ hh_income_idx r
         = or_else
             ((fst (Spec.final_level_trend (alpha default_params) (beta default_params)
                                           (map obs_value (data_income data)))
               + JS.of_nat 10
                 * snd (Spec.final_level_trend (alpha default_params) (beta default_params)
                                               (map obs_value (data_income data))))
              / hd nan (map obs_value (data_income data)))
             1.0.
Proof.
  intros geoId data Hi Ha.
  unfold calculateProjections, projections_body.
  rewrite (holtWintersForecast_returns (map to_point (data_income data)))
    by (now rewrite length_map).
  cbn [bind].
  rewrite (holtWintersForecast_returns (map to_point (data_age data)))
    by (now rewrite length_map).
  cbn [bind]. eexists. split; [reflexivity|].
  cbn [population_idx age_median hh_income_idx forecast].
  rewrite !values_of_points, (first_value_of_history _ Hi).
  unfold last_of. rewrite !forecast_loop_map.
  change (Z.to_nat 10) with 10%nat.
  rewrite !index_last by discriminate.
  change (seq 1 10) with (seq 1 (S 9)). rewrite !last_map_seq.
  repeat split.
Qed.

(** The hypotheses of X17 hold for two histories of two observations. *)
Lemma X17_witness :
  exists r,
    calculateProjections "06075"
      {| data_income := [obs 2020 100; obs 2021 110];
         data_age := [obs 2020 30; obs 2021 31] |} = (Return r, [])
    /\ population_idx r = 1.06
    /\ age_median r
       = Num (fst (Spec.final_level_trend (alpha default_params) (beta default_params)
                                          (map obs_value [obs 2020 30; obs 2021 31]))
              + JS.of_nat 10
                * snd (Spec.final_level_trend (alpha default_params) (beta default_params)
                                              (map obs_value [obs 2020 30; obs 2021 31])))
    /\ hh_income_idx r
       = or_else
           ((fst (Spec.final_level_trend (alpha default_params) (beta default_params)
                                         (map obs_value [obs 2020 100; obs 2021 110]))
             + JS.of_nat 10
               * snd (Spec.final_level_trend (alpha default_params) (beta default_params)
                                             (map obs_value [obs 2020 100; obs 2021 110])))
            / hd nan (map obs_value [obs 2020 100; obs 2021 110]))
           1.0.
Proof.
  apply (X17_projections_of_sufficient_history "06075"
           {| data_income := [obs 2020 100; obs 2021 110];
              data_age := [obs 2020 30; obs 2021 31] |}); simpl; lia.
Defined.

(** X18: for every input, the record calculateProjections returns has
    income indices that are neither 0 nor NaN (hh_income_idx, p25 and
    p75 alike), a population_idx that is one of the two constants 1.06
    and 1.0, and at most one warning is written. *)
Theorem X18_projection_indices_are_never_zero_or_nan :
  forall (geoId : string) (data : ProjectionData),
    exists r,
      fst (calculateProjections geoId data) = Return r
      /\ truthy (hh_income_idx r) = true
      /\ truthy (quartile_hh_income_idx (p25 r)) = true
      /\ truthy (quartile_hh_income_idx (p75 r)) = true
      /\ (population_idx r = 1.06 \/ population_idx r = 1.0)
      /\ (length (snd (calculateProjections geoId data)) <= 1)%nat.
Proof.
  intros geoId data. unfold calculateProjections, projections_body.
  destruct (holtWintersForecast (map to_point (data_income data)) 10 default_params)
    as [ri|e]; cbn [bind].
  - destruct (holtWintersForecast (map to_point (data_age data)) 10 default_params)
      as [ra|e]; cbn [bind].
    + eexists. split; [reflexivity|].
      cbn [hh_income_idx p25 p75 quartile_hh_income_idx population_idx snd length].
      repeat split; try (apply or_else_truthy; reflexivity); auto.
    + eexists. split; [reflexivity|]. cbn [snd length].
      repeat split; auto.
  - eexists. split; [reflexivity|]. cbn [snd length].
    repeat split; auto.
Qed.

End AggregatorProperties.

Section JobProperties.

Import SnapshotBuilder SnapshotJob JobView.
Open Scope float_scope.

Context {Store : Type}.
Variable prisma : Host Store.

Lemma written_nil (w : World Store) : written w [] = w.
Proof. destruct w. unfold written. simpl. now rewrite app_nil_r. Qed.

Lemma written_written (w : World Store) (l1 l2 : list ConsoleLine) :
  written (written w l1) l2 = written w (l1 ++ l2).
Proof. unfold written. simpl. now rewrite app_assoc. Qed.

Lemma geo_reports_app (l1 l2 : list ConsoleLine) :
  geo_reports (l1 ++ l2) = (geo_reports l1 + geo_reports l2)%nat.
Proof. unfold geo_reports. now rewrite filter_app, length_app. Qed.

Lemma geo_reports_warnings (ws : list Warning) :
  geo_reports (map WarnProjections ws) = 0%nat.
Proof. induction ws as [|a ws IH]; [reflexivity|exact IH]. Qed.

(** The outcome of building one snapshot does not depend on the state,
    is never [null], and only projection warnings are written. *)
Lemma buildSnapshotForGeo_outcome (geoId : string) (asofDate : Date) :
  exists (r : completion (option SnapshotMetrics)) (ws : list ConsoleLine),
    (forall w, buildSnapshotForGeo prisma geoId asofDate w = (r, written w ws))
    /\ r <> Return None
    /\ geo_reports ws = 0%nat.
Proof.
  unfold buildSnapshotForGeo, getMigrationData, getEmploymentTrends.
  destruct (getLatestMetricData prisma geoId "hh_income_median" 5) as [inc|e];
    [|exists (Throw e), []; repeat split; [|discriminate];
      intros w; now rewrite written_nil].
  destruct (getLatestMetricData prisma geoId "income_per_capita" 5) as [pc|e];
    [|exists (Throw e), []; repeat split; [|discriminate];
      intros w; now rewrite written_nil].
  destruct (getLatestMetricData prisma geoId "age_median" 5) as [ag|e];
    [|exists (Throw e), []; repeat split; [|discriminate];
      intros w; now rewrite written_nil].
  destruct (getLatestMetricData prisma geoId "net_migration_18_34" 5) as [mg|e];
    [|exists (Throw e), []; repeat split; [|discriminate];
      intros w; now rewrite written_nil].
  pose proof (calculateProjections_returns geoId {| data_income := inc; data_age := ag |})
    as [p Hp].
  eexists. exists (map WarnProjections
                       (snd (calculateProjections geoId {| data_income := inc; data_age := ag |}))).
  split; [|split; [|apply geo_reports_warnings]].
  - intros w. unfold bindM, await_read, await_projections, ret. rewrite Hp. reflexivity.
  - discriminate.
Qed.

(** One pass of the loop body always completes normally; what it does
    to the cache depends on the cache alone, and it reports once. *)
Lemma build_one_outcome (asofDate : Date) (geoArea : GeoArea) :
  exists (f : Store -> Store) (ls : Store -> list ConsoleLine),
    (forall w, build_one prisma asofDate geoArea w
               = (Return tt, {| cache := f (cache w);
                                console := console w ++ ls (cache w);
                                connected := connected w |}))
    /\ (forall c, geo_reports (ls c) = 1%nat)
    /\ ((forall w, exists e,
           fst (buildSnapshotForGeo prisma (geoId geoArea) asofDate w) = Throw e) ->
        forall c, f c = c).
Proof.
  destruct (buildSnapshotForGeo_outcome (geoId geoArea) asofDate) as (r & ws & Hr & Hnn & Hws).
  destruct r as [[s|]|e]; [| contradiction Hnn; reflexivity |].
  - exists (fun c => match snapshotCache_upsert prisma (snapshot_geoId s, asof s) s c with
                     | Return c' => c'
                     | Throw _ => c
                     end),
           (fun c => ws ++ [match snapshotCache_upsert prisma (snapshot_geoId s, asof s) s c with
                            | Return _ => LogBuilt (name geoArea) (geoId geoArea)
                            | Throw e => ErrorFailedGeo (geoId geoArea) e
                            end]).
    split; [|split].
    + intros w. unfold build_one, try_catch, bindM. rewrite Hr.
      unfold upsertSnapshot, console_write, written. cbn [cache console connected].
      destruct (snapshotCache_upsert prisma (snapshot_geoId s, asof s) s (cache w));
        cbn [cache console connected]; now rewrite <- app_assoc.
    + intros c. rewrite geo_reports_app, Hws.
      destruct (snapshotCache_upsert prisma (snapshot_geoId s, asof s) s c); reflexivity.
    + intros Hfail c.
      destruct (Hfail {| cache := c; console := []; connected := true |}) as [e He].
      rewrite Hr in He. discriminate He.
  - exists (fun c => c), (fun _ => ws ++ [ErrorFailedGeo (geoId geoArea) e]).
    split; [|split].
    + intros w. unfold build_one, try_catch, bindM. rewrite Hr.
      unfold console_write, written. cbn [cache console connected].
      now rewrite <- app_assoc.
    + intros c. rewrite geo_reports_app, Hws. reflexivity.
    + reflexivity.
Qed.

Lemma for_of_outcome (asofDate : Date) (geoAreas : list GeoArea) :
  exists (F : Store -> Store) (LS : Store -> list ConsoleLine),
    (forall w, for_of geoAreas (build_one prisma asofDate) w
               = (Return tt, {| cache := F (cache w);
                                console := console w ++ LS (cache w);
                                connected := connected w |}))
    /\ (forall c, geo_reports (LS c) = length geoAreas).
Proof.
  induction geoAreas as [|g geoAreas IH].
  - exists (fun c => c), (fun _ => []). split; [|reflexivity].
    intros w. cbn [for_of]. unfold ret. rewrite app_nil_r. now destruct w.
  - destruct (build_one_outcome asofDate g) as (f & ls & Hf & Hls & _).
    destruct IH as (F & LS & HF & HLS).
    exists (fun c => F (f c)), (fun c => ls c ++ LS (f c)).
    split.
    + intros w. cbn [for_of]. unfold bindM. rewrite Hf, HF.
      cbn [cache console connected]. now rewrite <- app_assoc.
    + intros c. rewrite geo_reports_app, Hls, HLS. reflexivity.
Qed.

Lemma for_of_cache_congruence (asofDate : Date) (geoAreas : list GeoArea)
      (w1 w2 : World Store) :
  cache w1 = cache w2 ->
  cache (snd (for_of geoAreas (build_one prisma asofDate) w1))
  = cache (snd (for_of geoAreas (build_one prisma asofDate) w2)).
Proof.
  intros H. destruct (for_of_outcome asofDate geoAreas) as (F & LS & HF & _).
  rewrite !HF. cbn [snd cache]. now rewrite H.
Qed.

Lemma asofDate_of_instant (config : SnapshotBuilderConfig) (instant : Date) :
  asof_instant prisma config = Some instant ->
  match asofDate config with
  | Some d => d
  | None => ValidDate (Date_now prisma)
  end = ValidDate instant.
Proof.
  unfold asof_instant. destruct (asofDate config) as [[t|]|]; intros H;
    try discriminate H; now injection H as ->.
Qed.



(** X21: a geography whose snapshot cannot be built leaves the cache
    exactly as if it had not been in the batch: the loop over the
    geographies with it and the loop without it end with the same
    cache. *)
Theorem X21_failing_geography_leaves_cache_untouched :
  forall (asofDate : Date) (pre : list GeoArea) (geoArea : GeoArea) (post : list GeoArea)
         (w : World Store),
    (forall w', exists error,
        fst (buildSnapshotForGeo prisma (geoId geoArea) asofDate w') = Throw error) ->
    fst (for_of (pre ++ geoArea :: post) (build_one prisma asofDate) w) = Return tt
    /\ cache (snd (for_of (pre ++ geoArea :: post) (build_one prisma asofDate) w))
       = cache (snd (for_of (pre ++ post) (build_one prisma asofDate) w)).
Proof.
  intros asofD pre g post w Hfail. split.
  - destruct (for_of_outcome asofD (pre ++ g :: post)) as (F & LS & HF & _).
    now rewrite HF.
  - revert w. induction pre as [|a pre IH]; intros w.
    + cbn [app for_of]. unfold bindM.
      destruct (build_one_outcome asofD g) as (f & ls & Hf & _ & Hid).
      rewrite Hf. apply for_of_cache_congruence.
      cbn [cache]. apply Hid, Hfail.
    + cbn [app for_of]. unfold bindM.
      destruct (build_one_outcome asofD a) as (f & ls & Hf & _ & _).
      rewrite Hf. apply IH.
Qed.

End JobProperties.

Section EntryPointProperties.

Import SnapshotBuilder SnapshotJob JobView JobSamples.
Open Scope float_scope.

Lemma buildSnapshots_completion {Store : Type} (prisma : Host Store)
      (config : SnapshotBuilderConfig) (instant : Date) (w : World Store) :
  asof_instant prisma config = Some instant ->
  fst (buildSnapshots prisma config w)
  = match geoArea_findMany prisma (geoIds config) with
    | Return _ => Return tt
    | Throw error => Throw error
    end.
Proof.
  intros Hdate.
  unfold buildSnapshots. rewrite (asofDate_of_instant prisma config instant Hdate).
  unfold try_finally, try_catch, bindM, console_write, await_read, evaluate,
    disconnect, throw.
  cbn [toISOString].
  destruct (geoArea_findMany prisma (geoIds config)) as [geoAreas|error]; [|reflexivity].
  destruct (for_of_outcome prisma instant geoAreas) as (F & LS & HF & _).
  rewrite HF. reflexivity.
Qed.

(** X22: a geography for which none of the four metric series yields an
    observation still gets a snapshot: its four metrics are null, its
    projections are the neutral fallback, the employment figure is the
    constant 0.021, and the only console output is one projection
    warning. *)
Theorem X22_geography_without_data_gets_null_snapshot :
  forall {Store : Type} (prisma : Host Store) (geoId : string) (asofDate : Date)
         (w : World Store),
    getLatestMetricData prisma geoId "hh_income_median" 5 = Return [] ->
    getLatestMetricData prisma geoId "income_per_capita" 5 = Return [] ->
    getLatestMetricData prisma geoId "age_median" 5 = Return [] ->
    getLatestMetricData prisma geoId "net_migration_18_34" 5 = Return [] ->
    exists snapshot warning,
      buildSnapshotForGeo prisma geoId asofDate w
      = (Return (Some snapshot), written w [WarnProjections warning])
      /\ snapshot_geoId snapshot = geoId
      /\ asof snapshot = asofDate
      /\ incomePerCapita snapshot = Null
      /\ hhIncomeMedian snapshot = Null
      /\ ageMedian snapshot = Null
      /\ netMigration1834 snapshot = Null
      /\ empGrowth5y snapshot = Num 0.021
      /\ proj10 snapshot = fallback
      /\ warn_error warning = "Need at least 2 data points for forecasting"%string.
Proof.
  intros Store prisma geoId asofD w Hinc Hpc Hage Hmig.
  unfold buildSnapshotForGeo, getMigrationData, getEmploymentTrends.
  rewrite Hinc, Hpc, Hage, Hmig.
  do 2 eexists. split; [reflexivity|]. repeat split.
Qed.

(** The hypotheses of X22 hold for a database without metric series. *)
Lemma X22_witness :
  exists snapshot warning,
    buildSnapshotForGeo unreachable_host "06075" 5%Z fresh_world
    = (Return (Some snapshot), written fresh_world [WarnProjections warning])
    /\ snapshot_geoId snapshot = "06075"%string
    /\ asof snapshot = 5%Z
    /\ incomePerCapita snapshot = Null
    /\ hhIncomeMedian snapshot = Null
    /\ ageMedian snapshot = Null
    /\ netMigration1834 snapshot = Null
    /\ empGrowth5y snapshot = Num 0.021
    /\ proj10 snapshot = fallback
    /\ warn_error warning = "Need at least 2 data points for forecasting"%string.
Proof.
  apply (X22_geography_without_data_gets_null_snapshot unreachable_host "06075" 5%Z
           fresh_world); reflexivity.
Defined.

(** X23: the entry point never throws, and its exit code only tells
    whether the list of geographies could be read: 0 when it could,
    however many geographies then failed, and 1 when it could not. *)
Theorem X23_exit_code_ignores_failed_geographies :
  forall {Store : Type} (prisma : Host Store) (args : list string) (w : World Store),
    fst (cli_main prisma args w)
    = match geoArea_findMany prisma (geoIds (cli_config args)) with
      | Return _ => Return 0%Z
      | Throw _ => Return 1%Z
      end.
Proof.
  intros Store prisma args w. unfold cli_main.
  pose proof (buildSnapshots_completion prisma (cli_config args) (Date_now prisma) w
                (eq_refl : asof_instant prisma (cli_config args) = Some (Date_now prisma)))
    as H.
  destruct (buildSnapshots prisma (cli_config args) w) as [[u|e] w'];
    cbn [fst] in *;
    destruct (geoArea_findMany prisma (geoIds (cli_config args)));
    try discriminate H; reflexivity.
Qed.

Lemma includes_app (pre rest : list string) (x : string) :
  includes (pre ++ x :: rest) x = true.
Proof.
  unfold includes. rewrite existsb_app. cbn [existsb].
  rewrite String.eqb_refl. now rewrite orb_true_r.
Qed.

Lemma indexOf_nonneg_or_absent (args : list string) (x : string) :
  (indexOf args x = -1 \/ 0 <= indexOf args x)%Z.
Proof.
  induction args as [|a args IH]; cbn [indexOf]; [now left|].
  destruct (String.eqb a x); [right; lia|].
  destruct (Z.ltb_spec (indexOf args x) 0); [now left|right; lia].
Qed.

Lemma indexOf_first (pre rest : list string) (x : string) :
  includes pre x = false ->
  indexOf (pre ++ x :: rest) x = Z.of_nat (length pre).
Proof.
  unfold includes. induction pre as [|a pre IH]; intros H.
  - cbn [app indexOf]. now rewrite String.eqb_refl.
  - cbn [existsb] in H. apply orb_false_iff in H. destruct H as [Ha Hpre].
    cbn [app indexOf]. rewrite Ha, (IH Hpre).
    destruct (Z.ltb_spec (Z.of_nat (length pre)) 0); [lia|].
    cbn [length]. lia.
Qed.

(** X24: how the entry point reads --geo-id: without the flag no filter
    is set (every geography is built); with the flag the filter is the
    single argument that follows its first occurrence, whatever that
    argument is; and when the flag is the last argument the filter is a
    list holding undefined. *)
Theorem X24_geo_id_flag_takes_next_argument :
  forall (pre : list string),
    includes pre "--geo-id" = false ->
    geoIds (cli_config pre) = None
    /\ (forall value post,
          geoIds (cli_config (pre ++ "--geo-id"%string :: value :: post))
          = Some [Some value])
    /\ geoIds (cli_config (pre ++ ["--geo-id"%string])) = Some [None].
Proof.
  intros pre Hpre. unfold cli_config. cbn [geoIds]. split; [now rewrite Hpre|]. split.
  - intros value post. rewrite includes_app, indexOf_first by assumption.
    unfold arg_at.
    destruct (Z.ltb_spec (Z.of_nat (length pre) + 1) 0); [lia|].
    replace (Z.to_nat (Z.of_nat (length pre) + 1)) with (length pre + 1)%nat by lia.
    rewrite nth_error_app2 by lia.
    replace (length pre + 1 - length pre)%nat with 1%nat by lia. reflexivity.
  - rewrite includes_app, indexOf_first by assumption.
    unfold arg_at.
    destruct (Z.ltb_spec (Z.of_nat (length pre) + 1) 0); [lia|].
    replace (Z.to_nat (Z.of_nat (length pre) + 1)) with (length pre + 1)%nat by lia.
    rewrite nth_error_app2 by lia.
    replace (length pre + 1 - length pre)%nat with 1%nat by lia. reflexivity.
Qed.

(** The hypothesis of X24 holds for the arguments before the flag in
    --force --geo-id 06075. *)
Lemma X24_witness :
  geoIds (cli_config ["--force"%string]) = None
  /\ (forall value post,
        geoIds (cli_config (["--force"%string] ++ "--geo-id"%string :: value :: post))
        = Some [Some value])
  /\ geoIds (cli_config (["--force"%string] ++ ["--geo-id"%string])) = Some [None].
Proof.
  apply (X24_geo_id_flag_takes_next_argument ["--force"%string]). reflexivity.
Defined.



(** The hypothesis of X21 holds for the geography whose reads fail in
    the sample database. *)
Lemma X21_witness :
  fst (for_of ([good_area] ++ bad_area :: [good_area]) (build_one sample_host 5%Z)
              fresh_world) = Return tt
  /\ cache (snd (for_of ([good_area] ++ bad_area :: [good_area])
                        (build_one sample_host 5%Z) fresh_world))
     = cache (snd (for_of ([good_area] ++ [good_area]) (build_one sample_host 5%Z)
                          fresh_world)).
Proof.
  apply (X21_failing_geography_leaves_cache_untouched sample_host 5%Z
           [good_area] bad_area [good_area] fresh_world).
  intros w'. eexists. reflexivity.
Defined.

End EntryPointProperties.

Section FormatProperties.

Import CagrFormat.
Open Scope float_scope.

Lemma negative_not_ge0 x : (x <? 0) = true -> (0 <=? x) = false.
Proof.
  intros H. rewrite leb_spec, Prim2SF_zero.
  destruct (negative_cases x H) as [-> | (m & e & ->)]; reflexivity.
Qed.

Lemma prefix_first_char (c : ascii) (rest : string) :
  prefix (String c EmptyString) (String c rest) = true.
Proof.
  cbn [prefix]. destruct (ascii_dec c c) as [_|Hne]; [|now contradiction Hne].
  destruct rest; reflexivity.
Qed.

(** X25: formatCAGR shows the sign of the percentage cagr * 100: the
    text starts with + when the percentage is at least 0 and with - when
    it is below 0, and a NaN percentage is rendered as NaN% without a
    sign.  A negative rate that rounds to zero keeps its minus sign:
    0.037 gives +3.7%, -0.008 gives -0.8% and -0.0004 gives -0.0%. *)
Theorem X25_formatCAGR_shows_sign_of_percentage :
  forall (Number_toString : float -> string) (cagr : float),
    ((0 <=? cagr * 100) = true ->
     prefix "+" (formatCAGR Number_toString cagr) = true)
    /\ ((cagr * 100 <? 0) = true ->
        prefix "-" (formatCAGR Number_toString cagr) = true)
    /\ (is_nan (cagr * 100) = true ->
        formatCAGR Number_toString cagr = "NaN%"%string)
    /\ formatCAGR Number_toString 0.037 = "+3.7%"%string
    /\ formatCAGR Number_toString (-0.008) = "-0.8%"%string
    /\ formatCAGR Number_toString (-0.0004) = "-0.0%"%string.
Proof.
  intros Number_toString cagr.
  split; [|split; [|split; [|split; [|split]]]]; try (vm_compute; reflexivity).
  - intros H. unfold formatCAGR. rewrite H. cbn [String.append].
    apply prefix_first_char.
  - intros H. unfold formatCAGR, toFixed. rewrite (negative_not_ge0 _ H).
    destruct (negative_cases _ H) as [-> | (m & e & ->)]; [reflexivity|].
    destruct (at_least_1e21 m e); cbn [String.append]; apply prefix_first_char.
  - intros H. unfold formatCAGR, toFixed. rewrite (is_nan_eq _ H). reflexivity.
Qed.

End FormatProperties.

Section MoreProjectionProperties.

Import HoltWinters SnapshotBuilder Samples.
Open Scope float_scope.

(** X26: when generateProjections returns, each of its three
    projections holds exactly 10 forecast values with a lower and an
    upper band of 10 values each. *)
Theorem X26_generated_projections_have_ten_points :
  forall (incomeData populationData ageData : list TimeSeriesPoint),
    (2 <= length incomeData)%nat ->
    (2 <= length populationData)%nat ->
    (2 <= length ageData)%nat ->
    exists out,
      generateProjections incomeData populationData ageData = Return out
      /\ Forall (fun r => length (forecast r) = 10%nat
                          /\ length (lower (confidenceBands r)) = 10%nat
                          /\ length (upper (confidenceBands r)) = 10%nat)
                [income out; population out; age out].
Proof.
  intros i p a Hi Hp Ha. unfold generateProjections.
  rewrite (holtWintersForecast_returns i _ _ Hi). cbn [bind].
  rewrite (holtWintersForecast_returns p _ _ Hp). cbn [bind].
  rewrite (holtWintersForecast_returns a _ _ Ha). cbn [bind].
  eexists. split; [reflexivity|].
  cbn [income population age].
  repeat constructor; cbn [forecast confidenceBands lower upper];
    rewrite ?length_map, forecast_loop_length; reflexivity.
Qed.

(** The hypotheses of X26 hold for three copies of the series 10, 20,
    30. *)
Lemma X26_witness :
  exists out,
    generateProjections rising rising rising = Return out
    /\ Forall (fun r => length (forecast r) = 10%nat
                        /\ length (lower (confidenceBands r)) = 10%nat
                        /\ length (upper (confidenceBands r)) = 10%nat)
              [income out; population out; age out].
Proof.
  apply (X26_generated_projections_have_ten_points rising rising rising); simpl; lia.
Defined.

(** Dividing by zero gives an infinity or NaN. *)
Lemma div_zero_cases x : x / 0 = infinity \/ x / 0 = neg_infinity \/ x / 0 = nan.
Proof.
  assert (H : Prim2SF (x / 0) = S754_infinity false
              \/ Prim2SF (x / 0) = S754_infinity true
              \/ Prim2SF (x / 0) = S754_nan).
  { rewrite div_spec, Prim2SF_zero. unfold SF64div, SFdiv.
    destruct (Prim2SF x) as [[|]|[|]| |[|] m e]; simpl; auto. }
  destruct H as [H|[H|H]]; [left|right; left|right; right];
    apply Prim2SF_inj; rewrite H; reflexivity.
Qed.

Lemma or_else_div_zero x :
  or_else (x / 0) 1.0 = infinity \/ or_else (x / 0) 1.0 = neg_infinity
  \/ or_else (x / 0) 1.0 = 1.0.
Proof.
  destruct (div_zero_cases x) as [H|[H|H]]; rewrite H; auto.
Qed.

(** X27: when the first income observation is 0, calculateProjections
    divides by zero: with at least 2 observations in both series, each
    of hh_income_idx, p25 and p75 is Infinity, -Infinity or the
    replacement value 1.0, never a finite ratio of the data. *)
Theorem X27_zero_first_income_gives_infinite_or_neutral_index :
  forall (geoId : string) (first : Observation) (rest : list Observation)
         (ages : list Observation),
    obs_value first = 0 ->
    (1 <= length rest)%nat ->
    (2 <= length ages)%nat ->
    exists r,
      fst (calculateProjections geoId {| data_income := first :: rest; data_age := ages |})
      = Return r
      /\ Forall (fun x => x = infinity \/ x = neg_infinity \/ x = 1.0)
                [hh_income_idx r; quartile_hh_income_idx (p25 r);
                 quartile_hh_income_idx (p75 r)].
Proof.
  intros geoId first rest ages Hzero Hrest Hages.
  unfold calculateProjections, projections_body. cbn [data_income data_age].
  rewrite (holtWintersForecast_returns (map to_point (first :: rest)))
    by (rewrite length_map; simpl; lia).
  cbn [bind].
  rewrite (holtWintersForecast_returns (map to_point ages)) by (now rewrite length_map).
  cbn [bind fst]. eexists. split; [reflexivity|].
  cbn [hh_income_idx p25 p75 quartile_hh_income_idx first_value to_number].
  rewrite Hzero.
  repeat (apply Forall_cons; [apply or_else_div_zero|]). apply Forall_nil.
Qed.

(** The hypotheses of X27 hold for an income history starting at 0. *)
Lemma X27_witness :
  exists r,
    fst (calculateProjections "06075"
           {| data_income := obs 2020 0 :: [obs 2021 110];
              data_age := [obs 2020 30; obs 2021 31] |})
    = Return r
    /\ Forall (fun x => x = infinity \/ x = neg_infinity \/ x = 1.0)
              [hh_income_idx r; quartile_hh_income_idx (p25 r);
               quartile_hh_income_idx (p75 r)].
Proof.
  apply (X27_zero_first_income_gives_infinite_or_neutral_index "06075"
           (obs 2020 0) [obs 2021 110] [obs 2020 30; obs 2021 31]).
  - reflexivity.
  - simpl. lia.
  - simpl. lia.
Defined.

End MoreProjectionProperties.

Section ReportProperties.

Import SnapshotBuilder SnapshotJob JobView JobSamples.
Open Scope float_scope.

Lemma buildSnapshotForGeo_cases {Store : Type} (prisma : Host Store)
      (geoId : string) (asofDate : Date) :
  (exists error, forall w, buildSnapshotForGeo prisma geoId asofDate w = (Throw error, w))
  \/ (exists snapshot warnings,
        (forall w, buildSnapshotForGeo prisma geoId asofDate w
                   = (Return (Some snapshot), written w warnings))
        /\ snapshot_geoId snapshot = geoId
        /\ asof snapshot = asofDate
        /\ geo_reports warnings = 0%nat).
Proof.
  unfold buildSnapshotForGeo, getMigrationData, getEmploymentTrends.
  destruct (getLatestMetricData prisma geoId "hh_income_median" 5) as [inc|e];
    [|left; exists e; reflexivity].
  destruct (getLatestMetricData prisma geoId "income_per_capita" 5) as [pc|e];
    [|left; exists e; reflexivity].
  destruct (getLatestMetricData prisma geoId "age_median" 5) as [ag|e];
    [|left; exists e; reflexivity].
  destruct (getLatestMetricData prisma geoId "net_migration_18_34" 5) as [mg|e];
    [|left; exists e; reflexivity].
  pose proof (calculateProjections_returns geoId {| data_income := inc; data_age := ag |})
    as [p Hp].
  right. eexists.
  exists (map WarnProjections
              (snd (calculateProjections geoId {| data_income := inc; data_age := ag |}))).
  split.
  - intros w. unfold bindM, await_read, await_projections, ret. rewrite Hp. reflexivity.
  - split; [reflexivity|]. split; [reflexivity|]. apply geo_reports_warnings.
Qed.

(** X28: the report on a geography tells what happened to the cache.
    One pass of the loop body writes, after any projection warning,
    exactly one report: either a failure report, and then the cache is
    as it was, or a success report, and then the cache is the result of
    upserting a snapshot keyed by that geography and the as-of date. *)
Theorem X28_report_tells_cache_effect :
  forall {Store : Type} (prisma : Host Store) (asofDate : Date) (geoArea : GeoArea)
         (w : World Store),
    exists warnings line,
      fst (build_one prisma asofDate geoArea w) = Return tt
      /\ console (snd (build_one prisma asofDate geoArea w))
         = console w ++ warnings ++ [line]
      /\ geo_reports warnings = 0%nat
      /\ (((exists error, line = ErrorFailedGeo (geoId geoArea) error)
           /\ cache (snd (build_one prisma asofDate geoArea w)) = cache w)
          \/ (line = LogBuilt (name geoArea) (geoId geoArea)
              /\ exists snapshot,
                   snapshot_geoId snapshot = geoId geoArea
                   /\ asof snapshot = asofDate
                   /\ snapshotCache_upsert prisma (geoId geoArea, asofDate) snapshot (cache w)
                      = Return (cache (snd (build_one prisma asofDate geoArea w))))).
Proof.
  intros Store prisma asofD g w.
  destruct (buildSnapshotForGeo_cases prisma (geoId g) asofD)
    as [(e & He) | (s & ws & Hs & Hkey & Hasof & Hws)].
  - exists [], (ErrorFailedGeo (geoId g) e).
    unfold build_one, try_catch, bindM. rewrite He.
    unfold console_write. cbn [fst snd cache console].
    repeat split. left. split; [now exists e|reflexivity].
  - unfold build_one, try_catch, bindM. rewrite Hs.
    unfold upsertSnapshot, console_write, written. cbn [cache console connected].
    rewrite Hkey, Hasof.
    destruct (snapshotCache_upsert prisma (geoId g, asofD) s (cache w)) as [c'|e] eqn:Eup.
    + exists ws, (LogBuilt (name g) (geoId g)). cbn [fst snd cache console].
      rewrite <- app_assoc. repeat split; [exact Hws|].
      right. split; [reflexivity|]. exists s. repeat split; assumption.
    + exists ws, (ErrorFailedGeo (geoId g) e). cbn [fst snd cache console].
      rewrite <- app_assoc. repeat split; [exact Hws|].
      left. split; [now exists e|reflexivity].
Qed.

End ReportProperties.
